(** * CaveGame: the D3D11 shader program (Renderer/Platform/D3D11/D3D11Shader.cpp)

    A shallow embedding of [D3D11Shader]: its constructor (stage
    de-duplication and stage creation), its destructor, the module lookup,
    the stage-kind mappings and the wrapper around the native compiler.

    The native side (the offline compiler, the device, COM reference
    counting) is not part of the repository.  It is taken as an interface,
    [D3D11Api], and as an explicit [World] that the embedded code threads:
    the device, the live [ID3DBlob] objects and the log of [Release] calls
    made on shader objects. *)

From Stdlib Require Import ZArith NArith List String Strings.Byte Lia.
From stdpp Require Import base option list gmap.
Import ListNotations.
Local Open Scope string_scope.

(** ** Primitive types *)

(** [HRESULT] is a signed 32-bit status; [SUCCEEDED(hr)] is [hr >= 0]. *)
Definition HRESULT := Z.
Definition S_OK : HRESULT := 0%Z.
Definition E_FAIL : HRESULT := (-2147467259)%Z. (* 0x80004005 as a signed 32-bit value *)
Definition SUCCEEDED (hr : HRESULT) : bool := (0 <=? hr)%Z.
Definition FAILED (hr : HRESULT) : bool := (hr <? 0)%Z.

(** [usize] is [u64]; sizes are only compared with zero and passed on. *)
Definition usize := N.

(** A region of memory given by pointer and length is modelled by the bytes
    it holds. *)
Definition Bytes := list byte.

(** [IUnknown*]: the opaque native handle of a shader object; address 0 is
    [nullptr]. *)
Definition Handle := N.
Definition nullptr : Handle := 0%N.

(** [ID3DBlob*]: [None] is [nullptr], [Some p] the address of a blob. *)
Definition BlobPtr := option positive.

(** [enum class ShaderStage].  The enumerators handled by every [switch] of
    the file are [Vertex] and [Fragment]; a value of the underlying integer
    type that is none of the enumerators is [UnknownStage raw]. *)
Inductive ShaderStage : Type :=
  | Vertex
  | Fragment
  | UnknownStage (raw : N).

(** [enum class ShaderSourceType], with the same convention. *)
Inductive ShaderSourceType : Type :=
  | SourceCode
  | Bytecode
  | UnknownSourceType (raw : N).

#[export] Instance ShaderStage_eq_dec : EqDecision ShaderStage.
Proof. solve_decision. Defined.

#[export] Instance ShaderSourceType_eq_dec : EqDecision ShaderSourceType.
Proof. solve_decision. Defined.

(** [shader_module.stage == stage_description.stage] *)
Definition stage_eqb (a b : ShaderStage) : bool := bool_decide (a = b).

Definition is_known_stage (s : ShaderStage) : bool :=
  match s with
  | Vertex | Fragment => true
  | UnknownStage _ => false
  end.

(** [String], [StringView] and [Buffer] by their contents. *)
Definition is_empty (s : string) : bool :=
  match s with
  | EmptyString => true
  | String _ _ => false
  end.

Definition Buffer := Bytes.
Definition Buffer_empty : Buffer := [].
Definition Buffer_copy (data : Bytes) : Buffer := data.
Definition byte_count (b : Buffer) : usize := N.of_nat (length b).

(** ** Records of the header *)

Module ShaderStageDescription.
Record t : Type := make {
  stage : ShaderStage;
  source_type : ShaderSourceType;
  source_code : string;
  source_bytecode_data : Bytes;
  source_bytecode_size : usize
}.
End ShaderStageDescription.

Module ShaderDescription.
Record t : Type := make {
  stages : list ShaderStageDescription.t
}.
End ShaderDescription.

Module ShaderModule.
Record t : Type := make {
  stage : ShaderStage;
  handle : Handle
}.
End ShaderModule.

Module ShaderCompilationResult.
Record t : Type := make {
  result : HRESULT;
  bytecode : Buffer;
  error_message : string
}.
End ShaderCompilationResult.

Record D3D11Shader : Type := MkD3D11Shader {
  m_shader_modules : list ShaderModule.t
}.

(** ** Contract failures *)

(** Modelled from the spec: the macros [CAVE_ASSERT] and [CAVE_VERIFY]
    (Core/Assertions.h is not among the sources).  The specification calls
    a failed check an assertion-style contract failure that is fatal and not
    recoverable; the failed expression is kept for the record. *)
Inductive ContractViolation : Type :=
  | AssertionFailed (expression : string)
  | VerificationFailed (expression : string).

(** A computation that may stop at a failed check and touches nothing
    else. *)
Inductive Checked (A : Type) : Type :=
  | Done (a : A)
  | Violated (v : ContractViolation).
Arguments Done {A} a.
Arguments Violated {A} v.

Definition checked_bind {A B} (c : Checked A) (k : A -> Checked B) : Checked B :=
  match c with
  | Done a => k a
  | Violated v => Violated v
  end.

Definition CAVE_ASSERT (expression : string) (condition : bool) : Checked unit :=
  if condition then Done tt else Violated (AssertionFailed expression).

Definition CAVE_VERIFY (expression : string) (condition : bool) : Checked unit :=
  if condition then Done tt else Violated (VerificationFailed expression).

(** ** Stage-kind mappings *)

(** [get_shader_entrypoint_name]: a [const char*], [None] being the
    [nullptr] of the line after the assertion. *)
Definition get_shader_entrypoint_name (stage : ShaderStage) : Checked (option string) :=
  match stage with
  | Vertex => Done (Some "cave_vertex_main")
  | Fragment => Done (Some "cave_fragment_main")
  | UnknownStage _ =>
      checked_bind (CAVE_ASSERT "false" false) (fun _ => Done None)
  end.

Definition get_shader_target (stage : ShaderStage) : Checked (option string) :=
  match stage with
  | Vertex => Done (Some "vs_5_0")
  | Fragment => Done (Some "ps_5_0")
  | UnknownStage _ =>
      checked_bind (CAVE_ASSERT "false" false) (fun _ => Done None)
  end.

(** ** The native interface *)

(** What the file calls and does not define: [D3DCompile] (a function of the
    source text, the entry point and the target profile; it hands back a
    status, a bytecode blob and a diagnostic blob, each possibly null) and
    the two creation calls of the device, which hand back a status and the
    out-parameter and may change the device. *)
Class D3D11Api : Type := {
  Device : Type;
  D3DCompile :
    string -> option string -> option string ->
    HRESULT * option Bytes * option Bytes;
  CreateVertexShader : Device -> Bytes -> usize -> HRESULT * Handle * Device;
  CreatePixelShader : Device -> Bytes -> usize -> HRESULT * Handle * Device
}.

(** ** The world the code runs in *)

Record World `{api : D3D11Api} : Type := MkWorld {
  device : Device;                 (* D3D11Renderer::get_device() *)
  blobs : gmap positive Bytes;     (* the live ID3DBlob objects *)
  released : list Handle           (* Release calls on shader objects, oldest first *)
}.

(** Reading or releasing an object that is not alive. *)
Inductive MemoryFault : Type :=
  | UseAfterRelease (p : positive)
  | DoubleRelease (p : positive).

Inductive Outcome `{api : D3D11Api} (A : Type) : Type :=
  | Returns (a : A) (w : World)
  | Fatal (v : ContractViolation)
  | Undefined (e : MemoryFault).
Arguments Returns {_ A} a w.
Arguments Fatal {_ A} v.
Arguments Undefined {_ A} e.

Definition M `{api : D3D11Api} (A : Type) : Type := World -> Outcome A.

Definition ret `{api : D3D11Api} {A} (a : A) : M A := fun w => Returns a w.

Definition bind `{api : D3D11Api} {A B} (c : M A) (k : A -> M B) : M B :=
  fun w =>
    match c w with
    | Returns a w' => k a w'
    | Fatal v => Fatal v
    | Undefined e => Undefined e
    end.

Notation "x <- c ;; k" := (bind c (fun x => k))
  (at level 100, c at next level, right associativity).
Notation "c ;;; k" := (bind c (fun _ => k))
  (at level 100, right associativity).

Definition check `{api : D3D11Api} {A} (c : Checked A) : M A :=
  fun w =>
    match c with
    | Done a => Returns a w
    | Violated v => Fatal v
    end.

(** *** Blobs *)

(** A blob handed back by the compiler is a new live object. *)
Definition blob_new `{api : D3D11Api} (contents : option Bytes) : M BlobPtr :=
  fun w =>
    match contents with
    | None => Returns None w
    | Some data =>
        let p := fresh (dom (blobs w)) in
        Returns (Some p)
          {| device := device w; blobs := <[p := data]> (blobs w); released := released w |}
    end.

(** [blob->GetBufferPointer()] with [blob->GetBufferSize()], read through. *)
Definition blob_read `{api : D3D11Api} (p : positive) : M Bytes :=
  fun w =>
    match blobs w !! p with
    | Some data => Returns data w
    | None => Undefined (UseAfterRelease p)
    end.

(** [blob->Release()]: the wrapper holds the only reference. *)
Definition blob_Release `{api : D3D11Api} (p : positive) : M unit :=
  fun w =>
    match blobs w !! p with
    | Some _ =>
        Returns tt
          {| device := device w; blobs := delete p (blobs w); released := released w |}
    | None => Undefined (DoubleRelease p)
    end.

(** [shader->Release()] on a shader object: logged. *)
Definition shader_Release `{api : D3D11Api} (h : Handle) : M unit :=
  fun w =>
    Returns tt
      {| device := device w; blobs := blobs w; released := released w ++ [h] |}.

(** Modelled from the spec: the macro [CAVE_D3D11_RELEASE]
    (Renderer/Platform/D3D11/D3D11Renderer.h is not among the sources), the
    handle release primitive of the specification: a reference-counted
    release, invoked once per acquired handle.  A null pointer is no
    acquired handle: no [Release] is made on it.  The pointer is null
    afterwards. *)
Definition CAVE_D3D11_RELEASE_blob `{api : D3D11Api} (blob : BlobPtr) : M BlobPtr :=
  match blob with
  | Some p => blob_Release p ;;; ret None
  | None => ret None
  end.

Definition CAVE_D3D11_RELEASE `{api : D3D11Api} (object : Handle) : M Handle :=
  if (object =? nullptr)%N then ret nullptr
  else shader_Release object ;;; ret nullptr.

(** The call of [D3DCompile] with its two out-parameters. *)
Definition call_D3DCompile `{api : D3D11Api}
    (source_code : string) (entrypoint target : option string)
  : M (HRESULT * BlobPtr * BlobPtr) :=
  let '(result_code, code, errors) := D3DCompile source_code entrypoint target in
  bytecode_blob <- blob_new code ;;
  error_message_blob <- blob_new errors ;;
  ret (result_code, bytecode_blob, error_message_blob).

Definition device_CreateVertexShader `{api : D3D11Api}
    (bytecode_data : Bytes) (bytecode_size : usize) : M (HRESULT * Handle) :=
  fun w =>
    let '(hr, out, dev) := CreateVertexShader (device w) bytecode_data bytecode_size in
    Returns (hr, out) {| device := dev; blobs := blobs w; released := released w |}.

Definition device_CreatePixelShader `{api : D3D11Api}
    (bytecode_data : Bytes) (bytecode_size : usize) : M (HRESULT * Handle) :=
  fun w =>
    let '(hr, out, dev) := CreatePixelShader (device w) bytecode_data bytecode_size in
    Returns (hr, out) {| device := dev; blobs := blobs w; released := released w |}.

(** ** D3D11Shader::compile_shader_module *)

(** A [StringView] made by [StringView::create_from_utf8] over a blob
    borrows the blob's memory. *)
Record StringView : Type := MkStringView { view_of : positive }.

(** Modelled from the spec: the type of
    [ShaderCompilationResult::error_message] (D3D11Shader.h is not among the
    sources).  The specification has the diagnostic text copied into
    caller-owned storage, so the field is an owning string and assigning a
    view to it reads the viewed memory. *)
Definition String_from_view `{api : D3D11Api} (v : StringView) : M string :=
  data <- blob_read (view_of v) ;;
  ret (string_of_list_byte data).

Definition compile_shader_module `{api : D3D11Api}
    (stage : ShaderStage) (source_code : string) : M ShaderCompilationResult.t :=
  entrypoint <- check (get_shader_entrypoint_name stage) ;;
  target <- check (get_shader_target stage) ;;
  compiled <- call_D3DCompile source_code entrypoint target ;;
  let '(result_code, bytecode_blob, error_message_blob) := compiled in
  bytecode <-
    match bytecode_blob with
    | Some p =>
        data <- blob_read p ;;
        CAVE_D3D11_RELEASE_blob bytecode_blob ;;;
        ret (Buffer_copy data)
    | None => ret Buffer_empty
    end ;;
  error_message <-
    match error_message_blob with
    | Some p =>
        let error_message_view := MkStringView p in
        text <- String_from_view error_message_view ;;
        CAVE_D3D11_RELEASE_blob error_message_blob ;;;
        ret text
    | None => ret EmptyString
    end ;;
  ret (ShaderCompilationResult.make result_code bytecode error_message).

(** ** D3D11Shader::create_shader_module *)

(** Lines 135-166: the bytecode pointer and size, by the origin of the
    description. *)
Definition resolve_bytecode `{api : D3D11Api}
    (description : ShaderStageDescription.t) : M (Bytes * usize) :=
  match ShaderStageDescription.source_type description with
  | SourceCode =>
      (* No shader source code has been provided. *)
      check (CAVE_ASSERT "!description.source_code.is_empty()"
               (negb (is_empty (ShaderStageDescription.source_code description)))) ;;;
      compilation_result <-
        compile_shader_module
          (ShaderStageDescription.stage description)
          (ShaderStageDescription.source_code description) ;;
      (if negb (is_empty (ShaderCompilationResult.error_message compilation_result))
       then check (CAVE_ASSERT "false" false)
       else ret tt) ;;;
      (* The compilation process failed, even if no error messages were generated. *)
      check (CAVE_ASSERT "SUCCEEDED(compilation_result.result)"
               (SUCCEEDED (ShaderCompilationResult.result compilation_result))) ;;;
      let compiled_bytecode := ShaderCompilationResult.bytecode compilation_result in
      ret (compiled_bytecode, byte_count compiled_bytecode)
  | Bytecode =>
      (* No bytecode data has been provided. *)
      check (CAVE_ASSERT "description.source_bytecode_size > 0"
               (0 <? ShaderStageDescription.source_bytecode_size description)%N) ;;;
      ret (ShaderStageDescription.source_bytecode_data description,
           ShaderStageDescription.source_bytecode_size description)
  | UnknownSourceType _ =>
      (* Invalid code path. *)
      check (CAVE_VERIFY "false" false) ;;;
      ret ([], 0%N)
  end.

(** Lines 168-189: the [switch] on the stage; [handle] is the value the
    module holds before the switch. *)
Definition create_native_shader `{api : D3D11Api}
    (stage : ShaderStage) (handle : Handle)
    (bytecode_data : Bytes) (bytecode_size : usize) : M Handle :=
  match stage with
  | Vertex =>
      created <- device_CreateVertexShader bytecode_data bytecode_size ;;
      check (CAVE_ASSERT "SUCCEEDED(vertex_shader_creation_result)"
               (SUCCEEDED (fst created))) ;;;
      ret (snd created)
  | Fragment =>
      created <- device_CreatePixelShader bytecode_data bytecode_size ;;
      check (CAVE_ASSERT "SUCCEEDED(fragment_shader_creation_result)"
               (SUCCEEDED (fst created))) ;;;
      ret (snd created)
  | UnknownStage _ =>
      (* no case matches, and nothing follows the switch *)
      ret handle
  end.

Definition create_shader_module `{api : D3D11Api}
    (description : ShaderStageDescription.t) : M ShaderModule.t :=
  (* ShaderModule shader_module = {}; shader_module.stage = description.stage; *)
  let shader_module :=
    ShaderModule.make (ShaderStageDescription.stage description) nullptr in
  source <- resolve_bytecode description ;;
  handle <-
    create_native_shader
      (ShaderStageDescription.stage description)
      (ShaderModule.handle shader_module) (fst source) (snd source) ;;
  (* compiled_bytecode.release(): the transient buffer, a value here, ends *)
  ret (ShaderModule.make (ShaderModule.stage shader_module) handle).

(** ** D3D11Shader::D3D11Shader *)

(** The inner loop with its [break]. *)
Fixpoint stage_already_exists
    (m_shader_modules : list ShaderModule.t) (stage : ShaderStage) : bool :=
  match m_shader_modules with
  | [] => false
  | shader_module :: rest =>
      if stage_eqb (ShaderModule.stage shader_module) stage then true
      else stage_already_exists rest stage
  end.

(** The outer loop; [set_capacity] only reserves storage. *)
Fixpoint construct_stages `{api : D3D11Api}
    (stages : list ShaderStageDescription.t)
    (m_shader_modules : list ShaderModule.t) : M (list ShaderModule.t) :=
  match stages with
  | [] => ret m_shader_modules
  | stage_description :: rest =>
      if stage_already_exists m_shader_modules
           (ShaderStageDescription.stage stage_description)
      then construct_stages rest m_shader_modules
      else
        shader_module <- create_shader_module stage_description ;;
        construct_stages rest (m_shader_modules ++ [shader_module])
  end.

Definition D3D11Shader_construct `{api : D3D11Api}
    (description : ShaderDescription.t) : M D3D11Shader :=
  modules <- construct_stages (ShaderDescription.stages description) [] ;;
  ret (MkD3D11Shader modules).

(** ** D3D11Shader::~D3D11Shader *)

Fixpoint release_modules `{api : D3D11Api}
    (m_shader_modules : list ShaderModule.t) : M (list ShaderModule.t) :=
  match m_shader_modules with
  | [] => ret []
  | shader_module :: rest =>
      h <- CAVE_D3D11_RELEASE (ShaderModule.handle shader_module) ;;
      rest' <- release_modules rest ;;
      ret (ShaderModule.make (ShaderModule.stage shader_module) h :: rest')
  end.

Definition D3D11Shader_destruct `{api : D3D11Api} (self : D3D11Shader) : M D3D11Shader :=
  release_modules (m_shader_modules self) ;;;
  (* m_shader_modules.clear_and_shrink() *)
  ret (MkD3D11Shader []).

(** ** D3D11Shader::get_shader_module *)

Fixpoint find_shader_module
    (m_shader_modules : list ShaderModule.t) (stage : ShaderStage) : Handle :=
  match m_shader_modules with
  | [] => nullptr (* the given shader stage does not exist *)
  | shader_module :: rest =>
      if stage_eqb (ShaderModule.stage shader_module) stage
      then ShaderModule.handle shader_module
      else find_shader_module rest stage
  end.

Definition get_shader_module (self : D3D11Shader) (stage : ShaderStage) : Handle :=
  find_shader_module (m_shader_modules self) stage.

(** ** The specification's vocabulary *)

(** The stage kinds of a list of descriptions and of a list of modules. *)
Definition kinds_of (stages : list ShaderStageDescription.t) : list ShaderStage :=
  ShaderStageDescription.stage <$> stages.

Definition module_kinds (modules : list ShaderModule.t) : list ShaderStage :=
  ShaderModule.stage <$> modules.

(** The distinct kinds of a description, and their number K. *)
Definition distinct_kinds (stages : list ShaderStageDescription.t) : list ShaderStage :=
  remove_dups (kinds_of stages).

(** The first description of a kind, in input order. *)
Fixpoint first_description_of_kind
    (stages : list ShaderStageDescription.t) (kind : ShaderStage)
  : option ShaderStageDescription.t :=
  match stages with
  | [] => None
  | d :: rest =>
      if bool_decide (ShaderStageDescription.stage d = kind) then Some d
      else first_description_of_kind rest kind
  end.

(** The descriptions that are the first of their kind: a description is kept
    when no earlier one has its kind ([seen] holds the earlier kinds). *)
Fixpoint first_of_each_kind_from
    (seen : list ShaderStage) (stages : list ShaderStageDescription.t)
  : list ShaderStageDescription.t :=
  match stages with
  | [] => []
  | d :: rest =>
      if bool_decide (ShaderStageDescription.stage d ∈ seen)
      then first_of_each_kind_from seen rest
      else d :: first_of_each_kind_from (seen ++ [ShaderStageDescription.stage d]) rest
  end.

Definition first_of_each_kind (stages : list ShaderStageDescription.t) :=
  first_of_each_kind_from [] stages.

(** Stage creation run over a list of descriptions, in order. *)
Fixpoint create_all `{api : D3D11Api}
    (stages : list ShaderStageDescription.t) : M (list ShaderModule.t) :=
  match stages with
  | [] => ret []
  | d :: rest =>
      shader_module <- create_shader_module d ;;
      modules <- create_all rest ;;
      ret (shader_module :: modules)
  end.

(** A module is built from a description when stage creation, in some world,
    returns it. *)
Definition built_from `{api : D3D11Api}
    (d : ShaderStageDescription.t) (m : ShaderModule.t) : Prop :=
  exists w w', create_shader_module d w = Returns m w'.

(** The malformed descriptions of the error taxonomy. *)
Definition malformed (d : ShaderStageDescription.t) : Prop :=
  match ShaderStageDescription.source_type d with
  | SourceCode => ShaderStageDescription.source_code d = EmptyString
  | Bytecode => ShaderStageDescription.source_bytecode_size d = 0%N
  | UnknownSourceType _ => True
  end.

Definition aborts `{api : D3D11Api} {A} (o : Outcome A) : Prop :=
  exists v, o = Fatal v.

(** What the native compiler is asked and what it answers for a stage whose
    kind is one of the enumerators. *)
Definition native_answer `{api : D3D11Api} (stage : ShaderStage) (source_code : string)
  : option (HRESULT * option Bytes * option Bytes) :=
  match get_shader_entrypoint_name stage, get_shader_target stage with
  | Done entrypoint, Done target => Some (D3DCompile source_code entrypoint target)
  | _, _ => None
  end.

(** The handles the stored modules hold: the non-null ones, in storage
    order. *)
Definition owned_handles (modules : list ShaderModule.t) : list Handle :=
  filter (fun h => h ≠ nullptr) (ShaderModule.handle <$> modules).

(** The compilation result that the wrapper makes of an answer of the native
    compiler. *)
Definition result_of_answer (answer : HRESULT * option Bytes * option Bytes)
  : ShaderCompilationResult.t :=
  let '(hr, code, errors) := answer in
  ShaderCompilationResult.make hr
    (default Buffer_empty code)
    (default EmptyString (string_of_list_byte <$> errors)).

(** The world after [Release] was called on each of [handles]. *)
Definition after_releases `{api : D3D11Api} (w : World) (handles : list Handle) : World :=
  {| device := device w; blobs := blobs w; released := released w ++ handles |}.

(** How often [Release] was called on a handle, and how many stored modules
    hold it. *)
Definition releases_of (h : Handle) (log : list Handle) : nat :=
  length (filter (fun x => x = h) log).

Definition holders_of (h : Handle) (modules : list ShaderModule.t) : nat :=
  length (filter (fun m => ShaderModule.handle m = h) modules).

(** The contract of the device's creation calls: a call that succeeds hands
    back an object. *)
Definition device_hands_back_objects `{api : D3D11Api} : Prop :=
  forall (dev dev' : Device) (data : Bytes) (size : usize) (hr : HRESULT) (h : Handle),
    (CreateVertexShader dev data size = (hr, h, dev') \/
     CreatePixelShader dev data size = (hr, h, dev')) ->
    SUCCEEDED hr = true -> h <> nullptr.

(** The contract of the native compiler: with a failing status it hands
    back no bytecode blob. *)
Definition compiler_hands_back_bytecode_on_success_only `{api : D3D11Api} : Prop :=
  forall (source_code : string) (entrypoint target : option string)
         (hr : HRESULT) (code errors : option Bytes),
    D3DCompile source_code entrypoint target = (hr, code, errors) ->
    FAILED hr = true -> code = None.

(** The creation call the switch of stage creation makes for a kind, and
    the expression of the assertion on its status. *)
Definition native_create `{api : D3D11Api}
    (stage : ShaderStage) (dev : Device) (data : Bytes) (size : usize)
  : option (HRESULT * Handle * Device) :=
  match stage with
  | Vertex => Some (CreateVertexShader dev data size)
  | Fragment => Some (CreatePixelShader dev data size)
  | UnknownStage _ => None
  end.

Definition creation_assertion (stage : ShaderStage) : string :=
  match stage with
  | Vertex => "SUCCEEDED(vertex_shader_creation_result)"
  | Fragment => "SUCCEEDED(fragment_shader_creation_result)"
  | UnknownStage _ => EmptyString
  end.

(** The world with the device as a creation call left it. *)
Definition with_device `{api : D3D11Api} (w : World) (dev : Device) : World :=
  {| device := dev; blobs := blobs w; released := released w |}.

(** ** A test double of the native interface *)

(** The device hands out consecutive non-null handles; the compiler answers
    by the source text: ["warn"] compiles with a warning, ["bad"] fails with
    a diagnostic, ["odd"] fails and still hands back a blob, anything else
    compiles silently. *)
Definition test_D3DCompile (source_code : string) (entrypoint target : option string)
  : HRESULT * option Bytes * option Bytes :=
  if String.eqb source_code "warn"
  then (S_OK, Some (list_byte_of_string source_code),
        Some (list_byte_of_string "warning X3206: implicit truncation"))
  else if String.eqb source_code "bad"
  then (E_FAIL, None, Some (list_byte_of_string "syntax error"))
  else if String.eqb source_code "odd"
  then (E_FAIL, Some [x01], None)
  else (S_OK, Some (list_byte_of_string source_code), None).

Definition test_api : D3D11Api := {|
  Device := N;
  D3DCompile := test_D3DCompile;
  CreateVertexShader := fun dev _ _ => (S_OK, N.succ dev, N.succ dev);
  CreatePixelShader := fun dev _ _ => (S_OK, N.succ dev, N.succ dev)
|}.

Definition test_world : @World test_api :=
  @MkWorld test_api 0%N ∅ [].

Definition vertex_from_source (source_code : string) : ShaderStageDescription.t :=
  ShaderStageDescription.make Vertex SourceCode source_code [] 0%N.

Definition fragment_from_source (source_code : string) : ShaderStageDescription.t :=
  ShaderStageDescription.make Fragment SourceCode source_code [] 0%N.

Definition from_bytecode (stage : ShaderStage) (data : Bytes) : ShaderStageDescription.t :=
  ShaderStageDescription.make stage Bytecode EmptyString data (N.of_nat (length data)).

(** The duplicate-handling example of the specification, and a program with
    a stage whose kind is none of the enumerators, given as bytecode. *)
Definition duplicate_vertex_description : ShaderDescription.t :=
  ShaderDescription.make
    [vertex_from_source "a"; vertex_from_source "b"; fragment_from_source "c"].

Definition unknown_stage_description : ShaderDescription.t :=
  ShaderDescription.make [from_bytecode (UnknownStage 7) [x01]].

Definition three_modules : D3D11Shader :=
  MkD3D11Shader
    [ShaderModule.make Vertex 1%N;
     ShaderModule.make (UnknownStage 7) nullptr;
     ShaderModule.make Fragment 2%N].


(** A device whose creation calls fail and still write the out-parameter. *)
Definition broken_device_api : D3D11Api := {|
  Device := unit;
  D3DCompile := test_D3DCompile;
  CreateVertexShader := fun dev _ _ => (E_FAIL, 9%N, dev);
  CreatePixelShader := fun dev _ _ => (E_FAIL, 9%N, dev)
|}.

Definition broken_world : @World broken_device_api :=
  @MkWorld broken_device_api tt ∅ [].

(** A compiler that reports success and hands back no blob at all. *)
Definition blobless_api : D3D11Api := {|
  Device := N;
  D3DCompile := fun _ _ _ => (S_OK, None, None);
  CreateVertexShader := fun dev _ _ => (S_OK, N.succ dev, N.succ dev);
  CreatePixelShader := fun dev _ _ => (S_OK, N.succ dev, N.succ dev)
|}.

Definition blobless_world : @World blobless_api :=
  @MkWorld blobless_api 0%N ∅ [].

(** A compiler that keeps its contract: ["bad"] fails with a diagnostic and
    no bytecode, anything else compiles silently. *)
Definition strict_compiler_api : D3D11Api := {|
  Device := N;
  D3DCompile := fun source_code _ _ =>
    if String.eqb source_code "bad"
    then (E_FAIL, None, Some (list_byte_of_string "syntax error"))
    else (S_OK, Some (list_byte_of_string source_code), None);
  CreateVertexShader := fun dev _ _ => (S_OK, N.succ dev, N.succ dev);
  CreatePixelShader := fun dev _ _ => (S_OK, N.succ dev, N.succ dev)
|}.

Definition strict_compiler_world : @World strict_compiler_api :=
  @MkWorld strict_compiler_api 0%N ∅ [].

(** * Proofs *)

Section D3D11Shader_proofs.
Context `{api : D3D11Api}.
Local Open Scope list_scope.

(** ** The monad *)

Lemma World_eta (w : World) :
  {| device := device w; blobs := blobs w; released := released w |} = w.
Proof. by destruct w. Qed.

Lemma bind_Returns {A B} (c : M A) (k : A -> M B) (w w' : World) (a : A) :
  c w = Returns a w' -> bind c k w = k a w'.
Proof. intros Hc. unfold bind. by rewrite Hc. Qed.

Lemma bind_Fatal {A B} (c : M A) (k : A -> M B) (w : World) v :
  c w = Fatal v -> bind c k w = Fatal v.
Proof. intros Hc. unfold bind. by rewrite Hc. Qed.

Lemma bind_inv_Returns {A B} (c : M A) (k : A -> M B) (w w2 : World) (b : B) :
  bind c k w = Returns b w2 ->
  exists a w1, c w = Returns a w1 /\ k a w1 = Returns b w2.
Proof.
  unfold bind. destruct (c w) as [a w1| |]; [|done..].
  intros Hk. by exists a, w1.
Qed.

Lemma check_Done {A} (a : A) (w : World) : check (Done a) w = Returns a w.
Proof. done. Qed.

(** ** Blobs: a blob that is made, read and released leaves no trace *)

Lemma blob_lifetime (m : gmap positive Bytes) (data : Bytes) :
  let p := fresh (dom m) in
  <[p := data]> m !! p = Some data /\ delete p (<[p := data]> m) = m.
Proof.
  intros p. split; [apply lookup_insert_eq|].
  apply delete_insert_id, not_elem_of_dom, is_fresh.
Qed.

(** A blob made after another lives at another address. *)
Lemma blob_second (m : gmap positive Bytes) (first second : Bytes) :
  let p := fresh (dom m) in
  let q := fresh (dom (<[p := first]> m)) in
  p <> q /\
  <[q := second]> (<[p := first]> m) !! p = Some first /\
  delete p (<[q := second]> (<[p := first]> m)) = <[q := second]> m.
Proof.
  intros p q.
  assert (Hq : q ∉ dom (<[p := first]> m)) by apply is_fresh.
  assert (Hpq : p <> q).
  { intros Heq. apply Hq. rewrite <- Heq, dom_insert_L. set_solver. }
  split; [done|]. split.
  - rewrite lookup_insert_ne by done. apply lookup_insert_eq.
  - rewrite delete_insert_ne by done.
    f_equal. apply delete_insert_id, not_elem_of_dom, is_fresh.
Qed.

Lemma blob_second_fresh (m : gmap positive Bytes) (first second : Bytes) :
  let p := fresh (dom m) in
  let q := fresh (dom (<[p := first]> m)) in
  <[q := second]> m !! q = Some second /\ delete q (<[q := second]> m) = m.
Proof.
  intros p q.
  assert (Hq : q ∉ dom (<[p := first]> m)) by apply is_fresh.
  split; [apply lookup_insert_eq|].
  apply delete_insert_id, not_elem_of_dom.
  intros Hin. apply Hq. rewrite dom_insert_L. set_solver.
Qed.

(** ** compile_shader_module *)

(** The wrapper hands on what the native compiler answered: the status as
    it is, the bytecode blob copied into the buffer, the diagnostic blob
    copied into the message; the blobs are gone when it returns. *)
Lemma compile_shader_module_answer
    (stage : ShaderStage) (source_code : string) (w : World)
    (hr : HRESULT) (code errors : option Bytes) :
  native_answer stage source_code = Some (hr, code, errors) ->
  compile_shader_module stage source_code w =
    Returns
      (ShaderCompilationResult.make hr
         (default Buffer_empty code)
         (default EmptyString (string_of_list_byte <$> errors)))
      w.
Proof.
  unfold native_answer, compile_shader_module.
  destruct (get_shader_entrypoint_name stage) as [entrypoint|]; [|done].
  destruct (get_shader_target stage) as [target|]; [|done].
  intros [= Hanswer].
  unfold bind at 1. rewrite check_Done.
  unfold bind at 1. rewrite check_Done.
  unfold call_D3DCompile. rewrite Hanswer.
  destruct code as [data|], errors as [text|]; cbn.
  - destruct (blob_second (blobs w) data text) as (Hne & Hq1 & Hq2).
    destruct (blob_second_fresh (blobs w) data text) as [Hq3 Hq4].
    unfold bind, blob_new, blob_read, blob_Release, String_from_view, ret; cbn.
    unfold bind, blob_read, ret; cbn.
    repeat (first [rewrite Hq1 | rewrite Hq2 | rewrite Hq3 | rewrite Hq4]; cbn).
    by rewrite World_eta.
  - destruct (blob_lifetime (blobs w) data) as [Hp1 Hp2].
    unfold bind, blob_new, blob_read, blob_Release, ret; cbn.
    repeat (first [rewrite Hp1 | rewrite Hp2]; cbn).
    by rewrite World_eta.
  - destruct (blob_lifetime (blobs w) text) as [Hp1 Hp2].
    unfold bind, blob_new, blob_read, blob_Release, String_from_view, ret; cbn.
    unfold bind, blob_read, ret; cbn.
    repeat (first [rewrite Hp1 | rewrite Hp2]; cbn).
    by rewrite World_eta.
  - reflexivity.
Qed.

Lemma compile_shader_module_unknown (raw : N) (source_code : string) (w : World) :
  compile_shader_module (UnknownStage raw) source_code w =
    Fatal (AssertionFailed "false").
Proof. reflexivity. Qed.

(** The wrapper returns in the world it was called in, or stops at the
    assertion of a mapping; it never touches a released blob. *)
Lemma compile_shader_module_outcome
    (stage : ShaderStage) (source_code : string) (w : World) :
  (exists r, compile_shader_module stage source_code w = Returns r w) \/
  (exists v, compile_shader_module stage source_code w = Fatal v).
Proof.
  destruct (native_answer stage source_code) as [[[hr code] errors]|] eqn:Hanswer.
  - left. eexists. by apply compile_shader_module_answer.
  - right. destruct stage; [done..|]. eexists. apply compile_shader_module_unknown.
Qed.

(** ** create_shader_module *)

Lemma resolve_bytecode_outcome (d : ShaderStageDescription.t) (w : World) :
  (exists source, resolve_bytecode d w = Returns source w) \/
  (exists v, resolve_bytecode d w = Fatal v).
Proof.
  unfold resolve_bytecode.
  destruct (ShaderStageDescription.source_type d).
  - destruct (is_empty (ShaderStageDescription.source_code d)); cbn;
      [right; by eexists|].
    destruct (compile_shader_module_outcome
                (ShaderStageDescription.stage d)
                (ShaderStageDescription.source_code d) w) as [[r Hr]|[v Hv]].
    + rewrite (bind_Returns _ _ _ _ _ Hr).
      destruct (is_empty (ShaderCompilationResult.error_message r)); cbn;
        [|right; by eexists].
      destruct (SUCCEEDED (ShaderCompilationResult.result r)); cbn;
        [left|right]; by eexists.
    + right. exists v. by apply bind_Fatal.
  - destruct (0 <? ShaderStageDescription.source_bytecode_size d)%N; cbn;
      [left|right]; by eexists.
  - right. by eexists.
Qed.

Lemma create_native_shader_outcome
    (stage : ShaderStage) (handle : Handle) (data : Bytes) (size : usize) (w : World) :
  (exists h w', create_native_shader stage handle data size w = Returns h w') \/
  (exists v, create_native_shader stage handle data size w = Fatal v).
Proof.
  destruct stage; cbn.
  - unfold bind, device_CreateVertexShader.
    destruct (CreateVertexShader (device w) data size) as [[hr out] dev]; cbn.
    destruct (SUCCEEDED hr); cbn; [left|right]; by repeat eexists.
  - unfold bind, device_CreatePixelShader.
    destruct (CreatePixelShader (device w) data size) as [[hr out] dev]; cbn.
    destruct (SUCCEEDED hr); cbn; [left|right]; by repeat eexists.
  - left. by repeat eexists.
Qed.

(** Stage creation returns a module of the kind of its description, or
    stops at a contract failure. *)
Lemma create_shader_module_outcome (d : ShaderStageDescription.t) (w : World) :
  (exists h w',
     create_shader_module d w =
       Returns (ShaderModule.make (ShaderStageDescription.stage d) h) w') \/
  (exists v, create_shader_module d w = Fatal v).
Proof.
  unfold create_shader_module.
  destruct (resolve_bytecode_outcome d w) as [[source Hs]|[v Hv]].
  - rewrite (bind_Returns _ _ _ _ _ Hs). cbn.
    destruct (create_native_shader_outcome
                (ShaderStageDescription.stage d) nullptr (fst source) (snd source) w)
      as [(h & w' & Hh)|[v Hv]].
    + left. exists h, w'. by rewrite (bind_Returns _ _ _ _ _ Hh).
    + right. exists v. by apply bind_Fatal.
  - right. exists v. by apply bind_Fatal.
Qed.

Lemma create_shader_module_stage (d : ShaderStageDescription.t) (w w' : World) m :
  create_shader_module d w = Returns m w' ->
  ShaderModule.stage m = ShaderStageDescription.stage d.
Proof.
  destruct (create_shader_module_outcome d w) as [(h & w1 & Hr)|[v Hv]];
    intros Hm; rewrite Hm in *; by simplify_eq.
Qed.

(** ** The constructor *)

Lemma stage_already_exists_spec (modules : list ShaderModule.t) (stage : ShaderStage) :
  stage_already_exists modules stage = bool_decide (stage ∈ module_kinds modules).
Proof.
  induction modules as [|m rest IH]; cbn.
  - symmetry. apply bool_decide_eq_false. by intros ?%elem_of_nil.
  - unfold stage_eqb. rewrite IH.
    destruct (decide (ShaderModule.stage m = stage)) as [Heq|Hne].
    + rewrite (bool_decide_eq_true_2 _ Heq). symmetry.
      apply bool_decide_eq_true_2. subst. apply list_elem_of_here.
    + rewrite (bool_decide_eq_false_2 _ Hne).
      apply bool_decide_ext. rewrite elem_of_cons.
      split; [by right|]. by intros [->|?].
Qed.

(** The loop of the constructor, started with some modules already stored,
    creates the descriptions that are the first of a kind not yet stored,
    in order, and appends what it creates. *)
Lemma construct_stages_create_all
    (stages : list ShaderStageDescription.t) :
  forall (modules : list ShaderModule.t) (w : World),
    construct_stages stages modules w =
      (created <- create_all (first_of_each_kind_from (module_kinds modules) stages) ;;
       ret (modules ++ created)%list) w.
Proof.
  induction stages as [|d rest IH]; intros modules w; cbn.
  - unfold bind, ret. cbn. by rewrite app_nil_r.
  - rewrite stage_already_exists_spec.
    case_bool_decide as Hseen; [apply IH|].
    cbn. unfold bind.
    destruct (create_shader_module d w) as [m w1| |] eqn:Hm; [|done..].
    rewrite IH. unfold module_kinds. rewrite fmap_app. cbn.
    rewrite (create_shader_module_stage _ _ _ _ Hm).
    unfold bind, ret.
    destruct (create_all _ w1) as [created w2| |]; [|done..].
    by rewrite <- app_assoc.
Qed.

Lemma create_all_built_from (stages : list ShaderStageDescription.t) :
  forall (w w' : World) (modules : list ShaderModule.t),
    create_all stages w = Returns modules w' ->
    Forall2 built_from stages modules.
Proof.
  induction stages as [|d rest IH]; intros w w' modules; cbn.
  - intros [= <- _]. constructor.
  - intros (m & w1 & Hm & Hrest)%bind_inv_Returns.
    apply bind_inv_Returns in Hrest as (ms & w2 & Hms & Hret).
    injection Hret as <- _.
    constructor; [by exists w, w1 | by eapply IH].
Qed.

(** ** First occurrences *)

Lemma first_of_each_kind_from_kinds (stages : list ShaderStageDescription.t) :
  forall seen : list ShaderStage,
    NoDup seen ->
    NoDup (seen ++ kinds_of (first_of_each_kind_from seen stages)) /\
    (forall kind,
       kind ∈ seen ++ kinds_of (first_of_each_kind_from seen stages) <->
       kind ∈ seen \/ kind ∈ kinds_of stages).
Proof.
  induction stages as [|d rest IH]; intros seen Hseen; cbn.
  - rewrite app_nil_r. split; [done|]. intros kind. rewrite elem_of_nil. tauto.
  - case_bool_decide as Hd.
    + destruct (IH seen Hseen) as [Hnd Hin]. split; [done|].
      intros kind. rewrite Hin, elem_of_cons.
      split; [intros [?|?]; auto|intros [?|[->|?]]; auto].
    + assert (Hseen' : NoDup (seen ++ [ShaderStageDescription.stage d])).
      { apply NoDup_app. split_and!; [done| |apply NoDup_singleton].
        intros x Hx ->%list_elem_of_singleton. done. }
      destruct (IH _ Hseen') as [Hnd Hin].
      rewrite <- app_assoc in Hnd. cbn in Hnd. split; [done|].
      intros kind. specialize (Hin kind).
      rewrite <- app_assoc in Hin. cbn in Hin.
      rewrite Hin, elem_of_app, list_elem_of_singleton, elem_of_cons. tauto.
Qed.

Lemma first_of_each_kind_NoDup (stages : list ShaderStageDescription.t) :
  NoDup (kinds_of (first_of_each_kind stages)).
Proof. by destruct (first_of_each_kind_from_kinds stages [] (NoDup_nil_2)). Qed.

Lemma first_of_each_kind_kinds (stages : list ShaderStageDescription.t) kind :
  kind ∈ kinds_of (first_of_each_kind stages) <-> kind ∈ kinds_of stages.
Proof.
  destruct (first_of_each_kind_from_kinds stages [] (NoDup_nil_2)) as [_ Hin].
  rewrite (Hin kind). cbn. rewrite elem_of_nil. tauto.
Qed.

Lemma first_of_each_kind_length (stages : list ShaderStageDescription.t) :
  length (first_of_each_kind stages) = length (distinct_kinds stages).
Proof.
  rewrite <- (length_fmap ShaderStageDescription.stage).
  apply Permutation_length, NoDup_Permutation.
  - apply first_of_each_kind_NoDup.
  - apply NoDup_remove_dups.
  - intros kind. unfold distinct_kinds.
    rewrite elem_of_remove_dups. apply first_of_each_kind_kinds.
Qed.

(** A description is kept exactly when it is the first of its kind. *)
Lemma first_of_each_kind_from_elem (stages : list ShaderStageDescription.t) :
  forall (seen : list ShaderStage) (d : ShaderStageDescription.t),
    d ∈ first_of_each_kind_from seen stages <->
    (ShaderStageDescription.stage d ∉ seen) /\
    first_description_of_kind stages (ShaderStageDescription.stage d) = Some d.
Proof.
  induction stages as [|d0 rest IH]; intros seen d; cbn.
  - rewrite elem_of_nil. split; [done|by intros [_ ?]].
  - case_bool_decide as Hd0; case_bool_decide as Hsame.
    + rewrite IH. split; [|intros [Hd _]]; [intros [Hd _]|]; by rewrite <- Hsame in Hd.
    + by rewrite IH.
    + rewrite elem_of_cons, IH, not_elem_of_app, list_elem_of_singleton.
      split.
      * intros [->|[[_ Hne] _]]; [done|]. by rewrite Hsame in Hne.
      * intros [_ [= ->]]. by left.
    + rewrite elem_of_cons, IH, not_elem_of_app, list_elem_of_singleton.
      split.
      * intros [->|[[Hd _] Hfirst]]; done.
      * intros [Hd Hfirst]. right. split_and!; [done|congruence|done].
Qed.

Lemma first_of_each_kind_elem
    (stages : list ShaderStageDescription.t) (d : ShaderStageDescription.t) :
  d ∈ first_of_each_kind stages <->
  first_description_of_kind stages (ShaderStageDescription.stage d) = Some d.
Proof.
  unfold first_of_each_kind. rewrite first_of_each_kind_from_elem.
  rewrite elem_of_nil. tauto.
Qed.

Lemma first_of_each_kind_from_length (stages : list ShaderStageDescription.t) :
  forall seen : list ShaderStage,
    length (first_of_each_kind_from seen stages) <= length stages.
Proof.
  induction stages as [|d rest IH]; intros seen; cbn; [lia|].
  case_bool_decide; cbn; [specialize (IH seen)|specialize (IH (seen ++ [ShaderStageDescription.stage d]))]; lia.
Qed.

Lemma built_from_kinds
    (stages : list ShaderStageDescription.t) (modules : list ShaderModule.t) :
  Forall2 built_from stages modules -> module_kinds modules = kinds_of stages.
Proof.
  induction 1 as [|d m ds ms (w & w' & Hm) _ IH]; [done|].
  unfold module_kinds, kinds_of in *. cbn.
  by rewrite IH, (create_shader_module_stage _ _ _ _ Hm).
Qed.

Lemma D3D11Shader_construct_create_all (description : ShaderDescription.t) (w : World) :
  D3D11Shader_construct description w =
    (modules <- create_all (first_of_each_kind (ShaderDescription.stages description)) ;;
     ret (MkD3D11Shader modules)) w.
Proof.
  unfold D3D11Shader_construct, bind.
  rewrite construct_stages_create_all. unfold bind, ret. cbn.
  by destruct (create_all _ w).
Qed.

(** What a completed construction holds. *)
Lemma D3D11Shader_construct_modules
    (description : ShaderDescription.t) (w w' : World) (self : D3D11Shader) :
  D3D11Shader_construct description w = Returns self w' ->
  length (m_shader_modules self)
    = length (distinct_kinds (ShaderDescription.stages description))
  /\ length (distinct_kinds (ShaderDescription.stages description))
       <= length (ShaderDescription.stages description)
  /\ NoDup (module_kinds (m_shader_modules self))
  /\ (forall kind,
        kind ∈ module_kinds (m_shader_modules self) <->
        kind ∈ kinds_of (ShaderDescription.stages description))
  /\ (forall i m,
        m_shader_modules self !! i = Some m ->
        exists d,
          first_of_each_kind (ShaderDescription.stages description) !! i = Some d
          /\ first_description_of_kind
                (ShaderDescription.stages description) (ShaderModule.stage m) = Some d
          /\ built_from d m).
Proof.
  rewrite D3D11Shader_construct_create_all.
  intros (modules & w1 & Hall & [= <- _])%bind_inv_Returns.
  cbn [m_shader_modules].
  apply create_all_built_from in Hall.
  pose proof (built_from_kinds _ _ Hall) as Hkinds.
  split_and!.
  - rewrite <- (Forall2_length _ _ _ Hall). apply first_of_each_kind_length.
  - rewrite <- first_of_each_kind_length. apply first_of_each_kind_from_length.
  - rewrite Hkinds. apply first_of_each_kind_NoDup.
  - intros kind. rewrite Hkinds. apply first_of_each_kind_kinds.
  - intros i m Hi.
    destruct (Forall2_lookup_r _ _ _ _ _ Hall Hi) as (d & Hd & Hbuilt).
    exists d. split_and!; [done| |done].
    destruct Hbuilt as (w2 & w3 & Hm).
    rewrite (create_shader_module_stage _ _ _ _ Hm).
    by apply first_of_each_kind_elem, list_elem_of_lookup_2 with i.
Qed.

(** ** The lookup *)

Lemma find_shader_module_absent (modules : list ShaderModule.t) (kind : ShaderStage) :
  kind ∉ module_kinds modules -> find_shader_module modules kind = nullptr.
Proof.
  induction modules as [|m rest IH]; cbn; [done|].
  rewrite not_elem_of_cons. intros [Hne Hrest].
  unfold stage_eqb. rewrite bool_decide_eq_false_2 by congruence. by apply IH.
Qed.

Lemma find_shader_module_present (modules : list ShaderModule.t) (m : ShaderModule.t) :
  NoDup (module_kinds modules) -> m ∈ modules ->
  find_shader_module modules (ShaderModule.stage m) = ShaderModule.handle m.
Proof.
  induction modules as [|m0 rest IH]; cbn; [by intros _ ?%elem_of_nil|].
  rewrite NoDup_cons, elem_of_cons. intros [Hfresh Hnd] [->|Hin].
  - unfold stage_eqb. by rewrite bool_decide_eq_true_2.
  - unfold stage_eqb. rewrite bool_decide_eq_false_2; [by apply IH|].
    intros Heq. apply Hfresh. rewrite Heq. by apply list_elem_of_fmap_2.
Qed.

(** With a device that hands back an object whenever it succeeds, a module
    created for one of the two enumerators holds a non-null handle. *)
Lemma create_shader_module_known_handle
    (d : ShaderStageDescription.t) (w w' : World) (m : ShaderModule.t) :
  device_hands_back_objects ->
  is_known_stage (ShaderStageDescription.stage d) = true ->
  create_shader_module d w = Returns m w' ->
  ShaderModule.handle m <> nullptr.
Proof.
  intros Hdevice Hknown. unfold create_shader_module.
  intros (source & w1 & _ & Hrest)%bind_inv_Returns.
  apply bind_inv_Returns in Hrest as (h & w2 & Hnative & [= <- _]). cbn.
  destruct (ShaderStageDescription.stage d); [| |done]; cbn in Hnative.
  - unfold bind, device_CreateVertexShader in Hnative.
    destruct (CreateVertexShader (device w1) (fst source) (snd source))
      as [[hr out] dev] eqn:Hcall.
    cbn in Hnative. destruct (SUCCEEDED hr) eqn:Hhr; [|done].
    injection Hnative as <- _. eapply Hdevice; [by left|done].
  - unfold bind, device_CreatePixelShader in Hnative.
    destruct (CreatePixelShader (device w1) (fst source) (snd source))
      as [[hr out] dev] eqn:Hcall.
    cbn in Hnative. destruct (SUCCEEDED hr) eqn:Hhr; [|done].
    injection Hnative as <- _. eapply Hdevice; [by right|done].
Qed.

(** What the lookup does give after construction: the handle of the module
    of the kind, non-null for the two enumerators under the device's
    contract, and [nullptr] for a kind without module. *)
Lemma get_shader_module_after_construct
    (description : ShaderDescription.t) (w w' : World) (self : D3D11Shader) :
  D3D11Shader_construct description w = Returns self w' ->
  (forall m, m ∈ m_shader_modules self ->
     get_shader_module self (ShaderModule.stage m) = ShaderModule.handle m /\
     (device_hands_back_objects -> is_known_stage (ShaderModule.stage m) = true ->
      get_shader_module self (ShaderModule.stage m) <> nullptr)) /\
  (forall kind, kind ∉ module_kinds (m_shader_modules self) ->
     get_shader_module self kind = nullptr).
Proof.
  intros Hself.
  destruct (D3D11Shader_construct_modules _ _ _ _ Hself) as (_ & _ & Hnd & _ & Hbuilt).
  split; [|intros kind; apply find_shader_module_absent].
  intros m Hm. unfold get_shader_module.
  rewrite (find_shader_module_present _ _ Hnd Hm). split; [done|].
  intros Hdevice Hknown.
  apply list_elem_of_lookup_1 in Hm as [i Hi].
  destruct (Hbuilt i m Hi) as (d & _ & _ & w1 & w2 & Hcreate).
  eapply create_shader_module_known_handle; [done| |done].
  by rewrite <- (create_shader_module_stage _ _ _ _ Hcreate).
Qed.

(** ** The destructor *)

Lemma after_releases_nil (w : World) : after_releases w [] = w.
Proof. unfold after_releases. rewrite app_nil_r. apply World_eta. Qed.

Lemma after_releases_app (w : World) (l k : list Handle) :
  after_releases (after_releases w l) k = after_releases w (l ++ k).
Proof. unfold after_releases. cbn. by rewrite app_assoc. Qed.

Lemma CAVE_D3D11_RELEASE_spec (h : Handle) (w : World) :
  CAVE_D3D11_RELEASE h w =
    Returns nullptr (after_releases w (filter (fun x => x <> nullptr) [h])).
Proof.
  unfold CAVE_D3D11_RELEASE. rewrite filter_cons, filter_nil.
  destruct (N.eqb_spec h nullptr) as [->|Hne].
  - rewrite decide_False by (intros Hn; by apply Hn).
    unfold ret. by rewrite after_releases_nil.
  - by rewrite decide_True.
Qed.

Lemma owned_handles_cons (m : ShaderModule.t) (rest : list ShaderModule.t) :
  owned_handles (m :: rest) =
    filter (fun x => x <> nullptr) [ShaderModule.handle m] ++ owned_handles rest.
Proof.
  unfold owned_handles. rewrite fmap_cons, !filter_cons, filter_nil.
  by case_decide.
Qed.

(** The loop of the destructor calls [Release] on the non-null stored
    handles, in storage order, and on nothing else. *)
Lemma release_modules_spec (modules : list ShaderModule.t) :
  forall w : World,
    exists modules',
      release_modules modules w =
        Returns modules' (after_releases w (owned_handles modules)).
Proof.
  induction modules as [|m rest IH]; intros w; cbn [release_modules].
  - exists []. unfold ret. by rewrite after_releases_nil.
  - unfold bind. rewrite CAVE_D3D11_RELEASE_spec.
    destruct (IH (after_releases w (filter (fun x => x <> nullptr) [ShaderModule.handle m])))
      as [rest' ->].
    eexists. unfold ret. by rewrite after_releases_app, owned_handles_cons.
Qed.

Lemma D3D11Shader_destruct_spec (self : D3D11Shader) (w : World) :
  D3D11Shader_destruct self w =
    Returns (MkD3D11Shader [])
      (after_releases w (owned_handles (m_shader_modules self))).
Proof.
  unfold D3D11Shader_destruct, bind.
  by destruct (release_modules_spec (m_shader_modules self) w) as [modules' ->].
Qed.

Lemma releases_of_app (h : Handle) (l k : list Handle) :
  releases_of h (l ++ k) = releases_of h l + releases_of h k.
Proof. unfold releases_of. by rewrite filter_app, length_app. Qed.

Lemma releases_of_owned (h : Handle) (modules : list ShaderModule.t) :
  h <> nullptr -> releases_of h (owned_handles modules) = holders_of h modules.
Proof.
  intros Hh. induction modules as [|m rest IH]; [done|].
  rewrite owned_handles_cons, releases_of_app, IH.
  unfold releases_of, holders_of. rewrite !filter_cons, filter_nil.
  destruct (decide (ShaderModule.handle m = h)) as [Heq|Hne].
  - rewrite decide_True by congruence. rewrite filter_cons, decide_True by done.
    done.
  - case_decide; [|done]. by rewrite filter_cons, decide_False.
Qed.

Lemma releases_of_absent (h : Handle) (l : list Handle) :
  h ∉ l -> releases_of h l = 0.
Proof.
  unfold releases_of. induction l as [|x l IH]; [done|].
  rewrite not_elem_of_cons, filter_cons. intros [Hne Hl].
  rewrite decide_False by congruence. by apply IH.
Qed.

Lemma releases_of_NoDup (h : Handle) (l : list Handle) :
  NoDup l -> h ∈ l -> releases_of h l = 1.
Proof.
  induction 1 as [|x l Hx Hnd IH]; [by intros ?%elem_of_nil|].
  rewrite elem_of_cons. intros [->|Hin].
  - change (x :: l) with ([x] ++ l).
    rewrite releases_of_app, (releases_of_absent _ _ Hx).
    unfold releases_of. by rewrite filter_cons, decide_True.
  - change (x :: l) with ([x] ++ l).
    rewrite releases_of_app, IH by done.
    rewrite releases_of_absent; [done|].
    rewrite list_elem_of_singleton. by intros ->.
Qed.

(** ** Stage creation from source text *)

Lemma SUCCEEDED_FAILED (hr : HRESULT) : SUCCEEDED hr = negb (FAILED hr).
Proof. unfold SUCCEEDED, FAILED. destruct (Z.ltb_spec hr 0), (Z.leb_spec 0 hr); cbn; lia. Qed.

Lemma is_empty_spec (text : string) : is_empty text = true <-> text = EmptyString.
Proof. by destruct text. Qed.

(** The checks that follow the compilation, by what it returned. *)
Lemma resolve_bytecode_compiled
    (d : ShaderStageDescription.t) (w w' : World) (r : ShaderCompilationResult.t) :
  ShaderStageDescription.source_type d = SourceCode ->
  is_empty (ShaderStageDescription.source_code d) = false ->
  compile_shader_module
    (ShaderStageDescription.stage d) (ShaderStageDescription.source_code d) w
    = Returns r w' ->
  resolve_bytecode d w =
    if negb (is_empty (ShaderCompilationResult.error_message r))
    then Fatal (AssertionFailed "false")
    else if SUCCEEDED (ShaderCompilationResult.result r)
    then Returns (ShaderCompilationResult.bytecode r,
                  byte_count (ShaderCompilationResult.bytecode r)) w'
    else Fatal (AssertionFailed "SUCCEEDED(compilation_result.result)").
Proof.
  intros Hsource Hnonempty Hcompile. unfold resolve_bytecode.
  rewrite Hsource, Hnonempty. cbn.
  rewrite (bind_Returns _ _ _ _ _ Hcompile).
  destruct (is_empty (ShaderCompilationResult.error_message r)); cbn; [|done].
  by destruct (SUCCEEDED (ShaderCompilationResult.result r)).
Qed.

Lemma resolve_bytecode_malformed (d : ShaderStageDescription.t) (w : World) :
  malformed d -> aborts (resolve_bytecode d w).
Proof.
  unfold malformed, resolve_bytecode, aborts.
  destruct (ShaderStageDescription.source_type d).
  - intros ->. by eexists.
  - intros ->. by eexists.
  - intros _. by eexists.
Qed.

Lemma create_shader_module_resolve_aborts (d : ShaderStageDescription.t) (w : World) :
  aborts (resolve_bytecode d w) -> aborts (create_shader_module d w).
Proof.
  intros [v Hv]. exists v. unfold create_shader_module. by apply bind_Fatal.
Qed.

Lemma create_shader_module_failed_compile
    (d : ShaderStageDescription.t) (w w' : World) (r : ShaderCompilationResult.t) :
  ShaderStageDescription.source_type d = SourceCode ->
  compile_shader_module
    (ShaderStageDescription.stage d) (ShaderStageDescription.source_code d) w
    = Returns r w' ->
  FAILED (ShaderCompilationResult.result r) = true ->
  aborts (create_shader_module d w).
Proof.
  intros Hsource Hcompile Hfailed. apply create_shader_module_resolve_aborts.
  destruct (is_empty (ShaderStageDescription.source_code d)) eqn:Hempty.
  - apply resolve_bytecode_malformed. unfold malformed.
    rewrite Hsource. by apply is_empty_spec.
  - rewrite (resolve_bytecode_compiled _ _ _ _ Hsource Hempty Hcompile).
    rewrite SUCCEEDED_FAILED, Hfailed. cbn.
    destruct (negb _); by eexists.
Qed.

(** A description on which stage creation always aborts makes a run of stage
    creations abort, whatever comes before it. *)
Lemma create_all_aborts
    (stages : list ShaderStageDescription.t) (d : ShaderStageDescription.t) :
  (forall w, aborts (create_shader_module d w)) ->
  d ∈ stages ->
  forall w, aborts (create_all stages w).
Proof.
  intros Hd. induction stages as [|d0 rest IH]; [by intros ?%elem_of_nil|].
  rewrite elem_of_cons. intros Hin w. cbn. unfold bind.
  destruct Hin as [<-|Hin].
  - destruct (Hd w) as [v ->]. by exists v.
  - destruct (create_shader_module_outcome d0 w) as [(h & w1 & ->)|[v ->]];
      [|by exists v].
    destruct (IH Hin w1) as [v ->]. by exists v.
Qed.

Lemma D3D11Shader_construct_aborts
    (description : ShaderDescription.t) (d : ShaderStageDescription.t) :
  (forall w, aborts (create_shader_module d w)) ->
  d ∈ first_of_each_kind (ShaderDescription.stages description) ->
  forall w, aborts (D3D11Shader_construct description w).
Proof.
  intros Hd Hin w. rewrite D3D11Shader_construct_create_all. unfold bind.
  destruct (create_all_aborts _ _ Hd Hin w) as [v ->]. by exists v.
Qed.

(** ** The claims *)

(** C1. Constructing a program from N stage descriptions with K distinct
    kinds runs stage creation on the descriptions that are the first of
    their kind, in input order, and on no other; when it completes, the
    program holds exactly K modules (K at most N), no two of a kind, one for
    every kind of the description, the i-th built from the i-th first
    description, which is the first description of the module's kind. *)
Theorem construct_one_module_per_kind (description : ShaderDescription.t) (w : World) :
  D3D11Shader_construct description w =
    (modules <- create_all (first_of_each_kind (ShaderDescription.stages description)) ;;
     ret (MkD3D11Shader modules)) w
  /\ forall (self : D3D11Shader) (w' : World),
      D3D11Shader_construct description w = Returns self w' ->
      length (m_shader_modules self)
        = length (distinct_kinds (ShaderDescription.stages description))
      /\ length (distinct_kinds (ShaderDescription.stages description))
           <= length (ShaderDescription.stages description)
      /\ NoDup (module_kinds (m_shader_modules self))
      /\ (forall kind,
            kind ∈ module_kinds (m_shader_modules self) <->
            kind ∈ kinds_of (ShaderDescription.stages description))
      /\ (forall i m,
            m_shader_modules self !! i = Some m ->
            exists d,
              first_of_each_kind (ShaderDescription.stages description) !! i = Some d
              /\ first_description_of_kind
                    (ShaderDescription.stages description) (ShaderModule.stage m) = Some d
              /\ built_from d m).
Proof.
  split; [apply D3D11Shader_construct_create_all|].
  intros self w'. apply D3D11Shader_construct_modules.
Qed.

(** C3. The destructor calls [Release] once for every stored module that
    holds a handle, in storage order, and leaves the storage empty: the
    number of releases of a handle grows by the number of modules that hold
    it, which is one when the stored handles are distinct; run again on the
    emptied program it releases nothing and leaves the world as it is. *)
Theorem destruct_releases_each_handle_once (self : D3D11Shader) (w : World) :
  D3D11Shader_destruct self w =
    Returns (MkD3D11Shader [])
      (after_releases w (owned_handles (m_shader_modules self)))
  /\ (forall h, h <> nullptr ->
        releases_of h
          (released (after_releases w (owned_handles (m_shader_modules self))))
        = releases_of h (released w) + holders_of h (m_shader_modules self))
  /\ (NoDup (owned_handles (m_shader_modules self)) ->
      forall h, h ∈ owned_handles (m_shader_modules self) ->
        releases_of h
          (released (after_releases w (owned_handles (m_shader_modules self))))
        = releases_of h (released w) + 1)
  /\ (forall w1 : World,
        D3D11Shader_destruct (MkD3D11Shader []) w1 = Returns (MkD3D11Shader []) w1).
Proof.
  split_and!.
  - apply D3D11Shader_destruct_spec.
  - intros h Hh. unfold after_releases. cbn [released].
    by rewrite releases_of_app, releases_of_owned.
  - intros Hnd h Hin. unfold after_releases. cbn [released].
    by rewrite releases_of_app, (releases_of_NoDup _ _ Hnd Hin).
  - intros w1. rewrite D3D11Shader_destruct_spec. cbn.
    by rewrite after_releases_nil.
Qed.

(** C4 (as the code has it). For a stage given as non-empty source text,
    diagnostic text that is not empty aborts stage creation at
    [CAVE_ASSERT(false)], whatever the status, so a warning is fatal; a
    failing status aborts as well; stage creation goes on to the native
    creation call exactly when the diagnostic text is empty and the status
    succeeded. *)
Theorem diagnostic_text_aborts_stage_creation
    (d : ShaderStageDescription.t) (w w' : World) (r : ShaderCompilationResult.t) :
  ShaderStageDescription.source_type d = SourceCode ->
  ShaderStageDescription.source_code d <> EmptyString ->
  compile_shader_module
    (ShaderStageDescription.stage d) (ShaderStageDescription.source_code d) w
    = Returns r w' ->
  (ShaderCompilationResult.error_message r <> EmptyString ->
     create_shader_module d w = Fatal (AssertionFailed "false"))
  /\ (FAILED (ShaderCompilationResult.result r) = true ->
      aborts (create_shader_module d w))
  /\ (ShaderCompilationResult.error_message r = EmptyString ->
      SUCCEEDED (ShaderCompilationResult.result r) = true ->
      create_shader_module d w =
        (handle <-
           create_native_shader (ShaderStageDescription.stage d) nullptr
             (ShaderCompilationResult.bytecode r)
             (byte_count (ShaderCompilationResult.bytecode r)) ;;
         ret (ShaderModule.make (ShaderStageDescription.stage d) handle)) w').
Proof.
  intros Hsource Hnonempty Hcompile.
  assert (Hempty : is_empty (ShaderStageDescription.source_code d) = false).
  { destruct (is_empty _) eqn:He; [|done]. by apply is_empty_spec in He. }
  pose proof (resolve_bytecode_compiled _ _ _ _ Hsource Hempty Hcompile) as Hresolve.
  split_and!.
  - intros Htext. unfold create_shader_module. apply bind_Fatal.
    rewrite Hresolve.
    destruct (is_empty (ShaderCompilationResult.error_message r)) eqn:He; [|done].
    by apply is_empty_spec in He.
  - intros Hfailed. by eapply create_shader_module_failed_compile.
  - intros Htext Hok. unfold create_shader_module.
    apply is_empty_spec in Htext. rewrite Htext, Hok in Hresolve. cbn in Hresolve.
    by rewrite (bind_Returns _ _ _ _ _ Hresolve).
Qed.

(** C5. With a native compiler that hands back no bytecode blob together
    with a failing status, the result of the wrapper holds bytecode only
    when its status indicates success: whenever the status is a failure the
    bytecode buffer is empty, and a buffer that is not empty comes with a
    success status. *)
Theorem bytecode_only_on_success
    (stage : ShaderStage) (source_code : string) (w w' : World)
    (r : ShaderCompilationResult.t) :
  compiler_hands_back_bytecode_on_success_only ->
  compile_shader_module stage source_code w = Returns r w' ->
  (FAILED (ShaderCompilationResult.result r) = true ->
     ShaderCompilationResult.bytecode r = Buffer_empty)
  /\ (ShaderCompilationResult.bytecode r <> Buffer_empty ->
      SUCCEEDED (ShaderCompilationResult.result r) = true).
Proof.
  intros Hcontract Hrun.
  assert (Habsent :
    FAILED (ShaderCompilationResult.result r) = true ->
    ShaderCompilationResult.bytecode r = Buffer_empty).
  { destruct (native_answer stage source_code) as [[[hr code] errors]|] eqn:Hanswer.
    - rewrite (compile_shader_module_answer _ _ w _ _ _ Hanswer) in Hrun.
      injection Hrun as <- _. cbn. intros Hfailed.
      unfold native_answer in Hanswer.
      destruct (get_shader_entrypoint_name stage) as [entrypoint|]; [|done].
      destruct (get_shader_target stage) as [target|]; [|done].
      injection Hanswer as Hanswer.
      by rewrite (Hcontract _ _ _ _ _ _ Hanswer Hfailed).
    - destruct stage; [done..|].
      by rewrite compile_shader_module_unknown in Hrun. }
  split; [done|]. intros Hpresent. rewrite SUCCEEDED_FAILED.
  destruct (FAILED (ShaderCompilationResult.result r)); [|done].
  by destruct Hpresent; apply Habsent.
Qed.

(** C6. The wrapper never reads a blob that was released: it reads the
    diagnostic blob while the blob is alive, keeps the text in the result,
    and releases the blob; it returns in the world it was called in, so the
    diagnostic object is gone and the text in the result is that of the
    blob.  A view read after the release would be a fault. *)
Theorem diagnostic_text_copied_before_release
    (stage : ShaderStage) (source_code : string) (w : World) :
  (forall e, compile_shader_module stage source_code w <> Undefined e)
  /\ (forall hr code text,
        native_answer stage source_code = Some (hr, code, Some text) ->
        exists r,
          compile_shader_module stage source_code w = Returns r w
          /\ ShaderCompilationResult.error_message r = string_of_list_byte text)
  /\ (forall p, blobs w !! p = None ->
        String_from_view (MkStringView p) w = Undefined (UseAfterRelease p)).
Proof.
  split_and!.
  - intros e He.
    destruct (compile_shader_module_outcome stage source_code w) as [[r Hr]|[v Hv]];
      congruence.
  - intros hr code text Hanswer. eexists.
    split; [by apply compile_shader_module_answer|done].
  - intros p Hp. unfold String_from_view, bind, blob_read. cbn. by rewrite Hp.
Qed.

(** C7 (as the code has it). Stage creation aborts on a malformed
    description (empty source text for a source-text origin, zero payload
    size for a bytecode origin, an origin outside the enumeration), in every
    world, so no module is returned; and construction aborts when such a
    description is the first of its kind, and so reaches stage creation.  A
    malformed description of a kind already stored is skipped unchecked. *)
Theorem malformed_description_aborts (d : ShaderStageDescription.t) :
  malformed d ->
  (forall w, aborts (create_shader_module d w))
  /\ (forall w m w', create_shader_module d w <> Returns m w')
  /\ (forall description w,
        d ∈ first_of_each_kind (ShaderDescription.stages description) ->
        aborts (D3D11Shader_construct description w)).
Proof.
  intros Hd.
  assert (Habort : forall w, aborts (create_shader_module d w)).
  { intros w. by apply create_shader_module_resolve_aborts, resolve_bytecode_malformed. }
  split_and!; [done| |].
  - intros w m w' Hm. destruct (Habort w) as [v Hv]. congruence.
  - intros description w Hin. by eapply D3D11Shader_construct_aborts.
Qed.

(** C8. Stage creation from source text aborts when the compilation returns
    a failing status.  When the native compiler answers the source of a
    description with a failing status, no module is ever built from the
    description, and construction aborts whenever the description is among
    those that reach stage creation. *)
Theorem failed_compilation_aborts (d : ShaderStageDescription.t) :
  ShaderStageDescription.source_type d = SourceCode ->
  (forall w r w',
     compile_shader_module
       (ShaderStageDescription.stage d) (ShaderStageDescription.source_code d) w
       = Returns r w' ->
     FAILED (ShaderCompilationResult.result r) = true ->
     aborts (create_shader_module d w))
  /\ (forall hr code errors,
        native_answer
          (ShaderStageDescription.stage d) (ShaderStageDescription.source_code d)
          = Some (hr, code, errors) ->
        FAILED hr = true ->
        (forall m, ~ built_from d m)
        /\ forall description w,
             d ∈ first_of_each_kind (ShaderDescription.stages description) ->
             aborts (D3D11Shader_construct description w)).
Proof.
  intros Hsource. split.
  - intros w r w' Hcompile Hfailed. by eapply create_shader_module_failed_compile.
  - intros hr code errors Hanswer Hfailed.
    assert (Habort : forall w, aborts (create_shader_module d w)).
    { intros w. eapply create_shader_module_failed_compile; [done| |].
      - by apply compile_shader_module_answer.
      - done. }
    split.
    + intros m (w & w' & Hm). destruct (Habort w) as [v Hv]. congruence.
    + intros description w Hin. by eapply D3D11Shader_construct_aborts.
Qed.

(** C9. The entry-point name and the target profile are fixed by the stage
    kind: non-null strings for [Vertex] and [Fragment], an assertion failure
    for any other kind; the wrapper passes exactly these to the native
    compiler, and for any other kind it stops at the assertion without
    calling the compiler. *)
Theorem entrypoint_and_target_by_kind (stage : ShaderStage) :
  match stage with
  | Vertex =>
      get_shader_entrypoint_name stage = Done (Some "cave_vertex_main")
      /\ get_shader_target stage = Done (Some "vs_5_0")
      /\ forall source_code w,
           compile_shader_module stage source_code w =
             Returns
               (result_of_answer
                  (D3DCompile source_code (Some "cave_vertex_main") (Some "vs_5_0")))
               w
  | Fragment =>
      get_shader_entrypoint_name stage = Done (Some "cave_fragment_main")
      /\ get_shader_target stage = Done (Some "ps_5_0")
      /\ forall source_code w,
           compile_shader_module stage source_code w =
             Returns
               (result_of_answer
                  (D3DCompile source_code (Some "cave_fragment_main") (Some "ps_5_0")))
               w
  | UnknownStage _ =>
      get_shader_entrypoint_name stage = Violated (AssertionFailed "false")
      /\ get_shader_target stage = Violated (AssertionFailed "false")
      /\ forall source_code w,
           compile_shader_module stage source_code w = Fatal (AssertionFailed "false")
  end.
Proof.
  destruct stage; (split_and!; [done..|]); intros source_code w.
  - destruct (D3DCompile source_code (Some "cave_vertex_main") (Some "vs_5_0"))
      as [[hr code] errors] eqn:Hanswer.
    apply compile_shader_module_answer. unfold native_answer. cbn. by rewrite Hanswer.
  - destruct (D3DCompile source_code (Some "cave_fragment_main") (Some "ps_5_0"))
      as [[hr code] errors] eqn:Hanswer.
    apply compile_shader_module_answer. unfold native_answer. cbn. by rewrite Hanswer.
  - done.
Qed.

(** C10. For a stage kind that is none of the enumerators the switch of
    stage creation matches no case and returns the null handle the module
    started with, without a contract failure; whatever stage creation
    returns for such a kind carries the kind and a null handle; and for a
    bytecode origin with a payload it does return, in the world it was
    called in. *)
Theorem unknown_stage_gets_null_handle (d : ShaderStageDescription.t) (raw : N) :
  ShaderStageDescription.stage d = UnknownStage raw ->
  (forall data size w,
     create_native_shader (UnknownStage raw) nullptr data size w = Returns nullptr w)
  /\ (forall w m w',
        create_shader_module d w = Returns m w' ->
        m = ShaderModule.make (UnknownStage raw) nullptr)
  /\ (ShaderStageDescription.source_type d = Bytecode ->
      (0 < ShaderStageDescription.source_bytecode_size d)%N ->
      forall w,
        create_shader_module d w =
          Returns (ShaderModule.make (UnknownStage raw) nullptr) w).
Proof.
  intros Hstage. split_and!.
  - done.
  - intros w m w'. unfold create_shader_module. rewrite Hstage.
    intros (source & w1 & _ & Hrest)%bind_inv_Returns.
    apply bind_inv_Returns in Hrest as (h & w2 & Hnative & Hret).
    unfold create_native_shader, ret in Hnative, Hret. cbn in Hnative, Hret.
    by simplify_eq.
  - intros Horigin Hsize w. unfold create_shader_module, resolve_bytecode.
    rewrite Hstage, Horigin. apply N.ltb_lt in Hsize. by rewrite Hsize.
Qed.

End D3D11Shader_proofs.

(** * The claims on the test double *)

Local Open Scope list_scope.

Lemma construct_one_module_per_kind_witness :
  exists self w',
    D3D11Shader_construct (api := test_api) duplicate_vertex_description test_world
      = Returns self w'
    /\ m_shader_modules self =
         [ShaderModule.make Vertex 1%N; ShaderModule.make Fragment 2%N]
    /\ length (m_shader_modules self)
         = length (distinct_kinds (ShaderDescription.stages duplicate_vertex_description))
    /\ NoDup (module_kinds (m_shader_modules self)).
Proof.
  exists (MkD3D11Shader [ShaderModule.make Vertex 1%N; ShaderModule.make Fragment 2%N]).
  exists (@MkWorld test_api 2%N ∅ []).
  assert (Hrun :
    D3D11Shader_construct (api := test_api) duplicate_vertex_description test_world
      = Returns
          (MkD3D11Shader [ShaderModule.make Vertex 1%N; ShaderModule.make Fragment 2%N])
          (@MkWorld test_api 2%N ∅ [])) by (vm_compute; reflexivity).
  destruct (proj2 (construct_one_module_per_kind (api := test_api)
                     duplicate_vertex_description test_world) _ _ Hrun)
    as (Hlength & _ & Hnodup & _).
  split; [exact Hrun|]. split; [reflexivity|]. split; [exact Hlength|exact Hnodup].
Defined.

(** C2. A program built from a bytecode description whose stage kind is none
    of the enumerators stores a module of that kind, and the lookup of the
    kind returns [nullptr], as it does for a kind without module. *)
Theorem stored_unknown_stage_looks_absent :
  exists self w',
    D3D11Shader_construct (api := test_api) unknown_stage_description test_world
      = Returns self w'
    /\ UnknownStage 7 ∈ module_kinds (m_shader_modules self)
    /\ get_shader_module self (UnknownStage 7) = nullptr
    /\ get_shader_module self Vertex = nullptr.
Proof.
  exists (MkD3D11Shader [ShaderModule.make (UnknownStage 7) nullptr]), test_world.
  split; [vm_compute; reflexivity|].
  split; [apply list_elem_of_here|]. split; reflexivity.
Qed.

Lemma destruct_releases_each_handle_once_witness :
  D3D11Shader_destruct (api := test_api) three_modules test_world
    = Returns (MkD3D11Shader []) (@MkWorld test_api 0%N ∅ [1%N; 2%N])
  /\ releases_of 1%N [1%N; 2%N] = 1
  /\ releases_of 2%N [1%N; 2%N] = 1.
Proof.
  destruct (destruct_releases_each_handle_once (api := test_api) three_modules test_world)
    as (Hrun & Hcount & Honce & _).
  split; [exact Hrun|]. split.
  - apply (Hcount 1%N). vm_compute. discriminate.
  - apply Honce.
    + vm_compute. apply NoDup_cons. split; [|apply NoDup_singleton].
      rewrite list_elem_of_singleton. discriminate.
    + vm_compute. apply list_elem_of_further, list_elem_of_here.
Defined.

(** A compilation that succeeds with a warning makes stage creation, and
    with it construction, abort. *)
Lemma warning_aborts_stage_creation :
  compile_shader_module (api := test_api) Vertex "warn" test_world
    = Returns
        (ShaderCompilationResult.make S_OK (list_byte_of_string "warn")
           "warning X3206: implicit truncation")
        test_world
  /\ SUCCEEDED S_OK = true
  /\ create_shader_module (api := test_api) (vertex_from_source "warn") test_world
       = Fatal (AssertionFailed "false")
  /\ D3D11Shader_construct (api := test_api)
       (ShaderDescription.make [vertex_from_source "warn"]) test_world
       = Fatal (AssertionFailed "false").
Proof. repeat split; vm_compute; reflexivity. Qed.

Lemma diagnostic_text_aborts_stage_creation_witness :
  create_shader_module (api := test_api) (vertex_from_source "warn") test_world
    = Fatal (AssertionFailed "false")
  /\ create_shader_module (api := test_api) (vertex_from_source "a") test_world
       = Returns (ShaderModule.make Vertex 1%N) (@MkWorld test_api 1%N ∅ []).
Proof.
  split.
  - refine (proj1 (diagnostic_text_aborts_stage_creation (api := test_api)
                     (vertex_from_source "warn") test_world test_world
                     (ShaderCompilationResult.make S_OK (list_byte_of_string "warn")
                        "warning X3206: implicit truncation") _ _ _) _).
    + reflexivity.
    + vm_compute. discriminate.
    + vm_compute. reflexivity.
    + vm_compute. discriminate.
  - rewrite (proj2 (proj2 (diagnostic_text_aborts_stage_creation (api := test_api)
                     (vertex_from_source "a") test_world test_world
                     (ShaderCompilationResult.make S_OK (list_byte_of_string "a")
                        EmptyString) eq_refl ltac:(vm_compute; discriminate)
                     ltac:(vm_compute; reflexivity))) eq_refl eq_refl).
    vm_compute. reflexivity.
Defined.

Lemma strict_compiler_keeps_its_contract :
  compiler_hands_back_bytecode_on_success_only (api := strict_compiler_api).
Proof.
  intros source_code entrypoint target hr code errors. cbn.
  destruct (String.eqb source_code "bad"); intros [= <- <- _]; [done|].
  vm_compute. discriminate.
Qed.

Lemma bytecode_only_on_success_witness :
  compile_shader_module (api := strict_compiler_api) Vertex "bad" strict_compiler_world
    = Returns (ShaderCompilationResult.make E_FAIL [] "syntax error")
        strict_compiler_world
  /\ ShaderCompilationResult.bytecode
       (ShaderCompilationResult.make E_FAIL [] "syntax error") = Buffer_empty.
Proof.
  assert (Hrun :
    compile_shader_module (api := strict_compiler_api) Vertex "bad" strict_compiler_world
      = Returns (ShaderCompilationResult.make E_FAIL [] "syntax error")
          strict_compiler_world) by (vm_compute; reflexivity).
  split; [exact Hrun|].
  apply (proj1 (bytecode_only_on_success (api := strict_compiler_api)
                  Vertex "bad" strict_compiler_world strict_compiler_world _
                  strict_compiler_keeps_its_contract Hrun)).
  reflexivity.
Defined.

Lemma diagnostic_text_copied_before_release_witness :
  exists r,
    compile_shader_module (api := test_api) Vertex "bad" test_world
      = Returns r test_world
    /\ ShaderCompilationResult.error_message r = "syntax error".
Proof.
  destruct (proj1 (proj2 (diagnostic_text_copied_before_release (api := test_api)
                            Vertex "bad" test_world))
              E_FAIL None (list_byte_of_string "syntax error"))
    as (r & Hrun & Htext).
  - vm_compute. reflexivity.
  - exists r. split; [exact Hrun|]. rewrite Htext. vm_compute. reflexivity.
Defined.

(** A malformed description of a kind already stored does not make
    construction abort: it is skipped before stage creation. *)
Lemma malformed_duplicate_is_skipped :
  malformed (vertex_from_source "")
  /\ D3D11Shader_construct (api := test_api)
       (ShaderDescription.make [vertex_from_source "a"; vertex_from_source ""])
       test_world
     = Returns (MkD3D11Shader [ShaderModule.make Vertex 1%N])
         (@MkWorld test_api 1%N ∅ [])
  /\ ~ aborts (D3D11Shader_construct (api := test_api)
                 (ShaderDescription.make [vertex_from_source "a"; vertex_from_source ""])
                 test_world).
Proof.
  assert (Hrun :
    D3D11Shader_construct (api := test_api)
      (ShaderDescription.make [vertex_from_source "a"; vertex_from_source ""])
      test_world
    = Returns (MkD3D11Shader [ShaderModule.make Vertex 1%N])
        (@MkWorld test_api 1%N ∅ [])) by (vm_compute; reflexivity).
  split; [reflexivity|]. split; [exact Hrun|].
  intros [v Hv]. rewrite Hrun in Hv. discriminate.
Qed.

Lemma malformed_description_aborts_witness :
  malformed (vertex_from_source "")
  /\ aborts (D3D11Shader_construct (api := test_api)
               (ShaderDescription.make [vertex_from_source ""]) test_world).
Proof.
  assert (Hmalformed : malformed (vertex_from_source "")) by reflexivity.
  split; [exact Hmalformed|].
  apply (proj2 (proj2 (malformed_description_aborts (api := test_api)
                         (vertex_from_source "") Hmalformed))).
  vm_compute. apply list_elem_of_here.
Defined.

Lemma failed_compilation_aborts_witness :
  aborts (create_shader_module (api := test_api) (vertex_from_source "bad") test_world)
  /\ aborts (D3D11Shader_construct (api := test_api)
               (ShaderDescription.make
                  [fragment_from_source "c"; vertex_from_source "bad"]) test_world).
Proof.
  destruct (failed_compilation_aborts (api := test_api)
              (vertex_from_source "bad") eq_refl) as [Hcreate Hconstruct].
  split.
  - apply (Hcreate test_world
             (ShaderCompilationResult.make E_FAIL [] "syntax error") test_world).
    + vm_compute. reflexivity.
    + reflexivity.
  - apply (proj2 (Hconstruct E_FAIL None (Some (list_byte_of_string "syntax error"))
                    ltac:(vm_compute; reflexivity) eq_refl)).
    vm_compute. apply list_elem_of_further, list_elem_of_here.
Defined.

Lemma unknown_stage_gets_null_handle_witness :
  create_shader_module (api := test_api) (from_bytecode (UnknownStage 7) [x01]) test_world
    = Returns (ShaderModule.make (UnknownStage 7) nullptr) test_world.
Proof.
  apply (proj2 (proj2 (unknown_stage_gets_null_handle (api := test_api)
                         (from_bytecode (UnknownStage 7) [x01]) 7%N eq_refl))).
  - reflexivity.
  - vm_compute. reflexivity.
Defined.

(** * Further properties of the shader program *)

Section D3D11Shader_more.
Context `{api : D3D11Api}.

(** ** Stage creation, step by step *)

Lemma create_shader_module_resolved
    (d : ShaderStageDescription.t) (w w1 : World) (source : Bytes * usize) :
  resolve_bytecode d w = Returns source w1 ->
  create_shader_module d w =
    (handle <-
       create_native_shader (ShaderStageDescription.stage d) nullptr
         (fst source) (snd source) ;;
     ret (ShaderModule.make (ShaderStageDescription.stage d) handle)) w1.
Proof.
  intros Hresolve. unfold create_shader_module.
  by rewrite (bind_Returns _ _ _ _ _ Hresolve).
Qed.

Lemma create_native_shader_call
    (stage : ShaderStage) (handle : Handle) (data : Bytes) (size : usize)
    (w : World) (hr : HRESULT) (h : Handle) (dev : Device) :
  native_create stage (device w) data size = Some (hr, h, dev) ->
  create_native_shader stage handle data size w =
    if SUCCEEDED hr then Returns h (with_device w dev)
    else Fatal (AssertionFailed (creation_assertion stage)).
Proof.
  destruct stage; cbn; [| |done]; intros [= Hcall].
  - unfold bind, device_CreateVertexShader. rewrite Hcall. cbn.
    by destruct (SUCCEEDED hr).
  - unfold bind, device_CreatePixelShader. rewrite Hcall. cbn.
    by destruct (SUCCEEDED hr).
Qed.

Lemma resolve_bytecode_world
    (d : ShaderStageDescription.t) (w w1 : World) (source : Bytes * usize) :
  resolve_bytecode d w = Returns source w1 -> w1 = w.
Proof.
  intros Hresolve.
  destruct (resolve_bytecode_outcome d w) as [[source' Hs]|[v Hv]]; congruence.
Qed.

Lemma create_native_shader_world
    (stage : ShaderStage) (handle : Handle) (data : Bytes) (size : usize)
    (w w' : World) (h : Handle) :
  create_native_shader stage handle data size w = Returns h w' ->
  blobs w' = blobs w /\ released w' = released w.
Proof.
  destruct (native_create stage (device w) data size) as [[[hr out] dev]|] eqn:Hcall.
  - rewrite (create_native_shader_call _ _ _ _ _ _ _ _ Hcall).
    destruct (SUCCEEDED hr); [|done]. by intros [= _ <-].
  - destruct stage; [done..|]. cbn. by intros [= _ <-].
Qed.

Lemma create_shader_module_world
    (d : ShaderStageDescription.t) (w w' : World) (m : ShaderModule.t) :
  create_shader_module d w = Returns m w' ->
  blobs w' = blobs w /\ released w' = released w.
Proof.
  unfold create_shader_module.
  intros (source & w1 & Hresolve & Hrest)%bind_inv_Returns.
  apply bind_inv_Returns in Hrest as (h & w2 & Hnative & [= _ <-]).
  apply resolve_bytecode_world in Hresolve as ->.
  by eapply create_native_shader_world.
Qed.

Lemma create_all_world (stages : list ShaderStageDescription.t) :
  forall (w w' : World) (modules : list ShaderModule.t),
    create_all stages w = Returns modules w' ->
    blobs w' = blobs w /\ released w' = released w.
Proof.
  induction stages as [|d rest IH]; intros w w' modules; cbn.
  - by intros [= _ <-].
  - intros (m & w1 & Hm & Hrest)%bind_inv_Returns.
    apply bind_inv_Returns in Hrest as (ms & w2 & Hms & [= _ <-]).
    destruct (create_shader_module_world _ _ _ _ Hm) as [Hb1 Hr1].
    destruct (IH _ _ _ Hms) as [Hb2 Hr2]. split; congruence.
Qed.

Lemma create_shader_module_unknown_handle
    (d : ShaderStageDescription.t) (w w' : World) (m : ShaderModule.t) :
  is_known_stage (ShaderStageDescription.stage d) = false ->
  create_shader_module d w = Returns m w' ->
  ShaderModule.handle m = nullptr.
Proof.
  intros Hunknown. unfold create_shader_module.
  intros (source & w1 & _ & Hrest)%bind_inv_Returns.
  apply bind_inv_Returns in Hrest as (h & w2 & Hnative & [= <- _]).
  destruct (ShaderStageDescription.stage d); [done..|].
  cbn in Hnative. by injection Hnative as <- _.
Qed.

(** ** First occurrences, again *)

Lemma first_of_each_kind_from_skip (before : list ShaderStageDescription.t) :
  forall (seen : list ShaderStage) (d : ShaderStageDescription.t)
         (after : list ShaderStageDescription.t),
    ShaderStageDescription.stage d ∈ (seen ++ kinds_of before)%list ->
    first_of_each_kind_from seen (before ++ d :: after)%list =
    first_of_each_kind_from seen (before ++ after)%list.
Proof.
  induction before as [|d0 rest IH]; intros seen d after; cbn.
  - rewrite app_nil_r. intros Hin. by rewrite bool_decide_eq_true_2.
  - intros Hin. case_bool_decide as Hd0.
    + apply IH. rewrite elem_of_app, elem_of_cons in Hin. rewrite elem_of_app.
      destruct Hin as [?|[->|?]]; auto.
    + f_equal. apply IH. by rewrite <- app_assoc.
Qed.

Lemma first_of_each_kind_from_idem (stages : list ShaderStageDescription.t) :
  forall seen : list ShaderStage,
    first_of_each_kind_from seen (first_of_each_kind_from seen stages) =
    first_of_each_kind_from seen stages.
Proof.
  induction stages as [|d rest IH]; intros seen; cbn; [done|].
  case_bool_decide as Hd; [apply IH|].
  cbn. rewrite bool_decide_eq_false_2 by done. f_equal. apply IH.
Qed.

Lemma resolve_bytecode_source_answer
    (d : ShaderStageDescription.t) (w : World)
    (hr : HRESULT) (code errors : option Bytes) :
  ShaderStageDescription.source_type d = SourceCode ->
  ShaderStageDescription.source_code d <> EmptyString ->
  native_answer
    (ShaderStageDescription.stage d) (ShaderStageDescription.source_code d)
    = Some (hr, code, errors) ->
  SUCCEEDED hr = true ->
  default EmptyString (string_of_list_byte <$> errors) = EmptyString ->
  resolve_bytecode d w =
    Returns (default Buffer_empty code, byte_count (default Buffer_empty code)) w.
Proof.
  intros Hsource Hnonempty Hanswer Hok Hquiet.
  assert (Hempty : is_empty (ShaderStageDescription.source_code d) = false).
  { destruct (is_empty _) eqn:He; [|done]. by apply is_empty_spec in He. }
  rewrite (resolve_bytecode_compiled _ _ _ _ Hsource Hempty
             (compile_shader_module_answer _ _ w _ _ _ Hanswer)).
  cbn. by rewrite Hquiet, Hok.
Qed.

Lemma resolve_bytecode_payload (d : ShaderStageDescription.t) (w : World) :
  ShaderStageDescription.source_type d = Bytecode ->
  (0 < ShaderStageDescription.source_bytecode_size d)%N ->
  resolve_bytecode d w =
    Returns (ShaderStageDescription.source_bytecode_data d,
             ShaderStageDescription.source_bytecode_size d) w.
Proof.
  intros Horigin Hsize. unfold resolve_bytecode. rewrite Horigin.
  apply N.ltb_lt in Hsize. by rewrite Hsize.
Qed.

(** ** The properties *)

(** X1. Once the bytecode of a description is resolved, stage creation
    makes the creation call of the stage's kind on it: when the call
    succeeds, the module holds the object the device handed back and the
    device is as the call left it; when the call fails, stage creation
    aborts at the assertion on the call's status, whatever the call wrote to
    its out-parameter. *)
Theorem stage_creation_stores_the_device_object
    (d : ShaderStageDescription.t) (w : World) (source : Bytes * usize)
    (hr : HRESULT) (h : Handle) (dev : Device) :
  resolve_bytecode d w = Returns source w ->
  native_create (ShaderStageDescription.stage d) (device w) (fst source) (snd source)
    = Some (hr, h, dev) ->
  (SUCCEEDED hr = true ->
     create_shader_module d w =
       Returns (ShaderModule.make (ShaderStageDescription.stage d) h) (with_device w dev))
  /\ (FAILED hr = true ->
      create_shader_module d w =
        Fatal (AssertionFailed (creation_assertion (ShaderStageDescription.stage d)))).
Proof.
  intros Hresolve Hcall.
  rewrite (create_shader_module_resolved _ _ _ _ Hresolve). unfold bind.
  rewrite (create_native_shader_call _ _ _ _ _ _ _ _ Hcall).
  rewrite SUCCEEDED_FAILED. split; intros Hhr.
  - apply negb_true_iff in Hhr. by rewrite Hhr.
  - by rewrite Hhr.
Qed.

(** X2. A stage given as source text that compiles, with a success status
    and no diagnostic text, to a non-empty bytecode, and a stage of the same
    kind given as that bytecode with its length, are created alike: in every
    world stage creation has the same outcome for both. *)
Theorem origin_equivalence
    (d_source d_bytecode : ShaderStageDescription.t)
    (hr : HRESULT) (code : Bytes) (errors : option Bytes) :
  ShaderStageDescription.source_type d_source = SourceCode ->
  ShaderStageDescription.source_code d_source <> EmptyString ->
  native_answer
    (ShaderStageDescription.stage d_source)
    (ShaderStageDescription.source_code d_source)
    = Some (hr, Some code, errors) ->
  SUCCEEDED hr = true ->
  default EmptyString (string_of_list_byte <$> errors) = EmptyString ->
  code <> [] ->
  ShaderStageDescription.source_type d_bytecode = Bytecode ->
  ShaderStageDescription.stage d_bytecode = ShaderStageDescription.stage d_source ->
  ShaderStageDescription.source_bytecode_data d_bytecode = code ->
  ShaderStageDescription.source_bytecode_size d_bytecode = byte_count code ->
  forall w : World,
    create_shader_module d_source w = create_shader_module d_bytecode w.
Proof.
  intros Hsource Hnonempty Hanswer Hok Hquiet Hcode Horigin Hstage Hdata Hsize w.
  rewrite (create_shader_module_resolved d_source w w (code, byte_count code)).
  - rewrite (create_shader_module_resolved d_bytecode w w (code, byte_count code)).
    + by rewrite Hstage.
    + rewrite resolve_bytecode_payload; [by rewrite Hdata, Hsize|done|].
      rewrite Hsize. unfold byte_count. destruct code; [done|]. cbn. lia.
  - by rewrite (resolve_bytecode_source_answer _ _ _ _ _
                  Hsource Hnonempty Hanswer Hok Hquiet).
Qed.

(** X3. The source-text path does not check that the compilation produced
    bytecode: when the native compiler answers a success status with no
    bytecode blob and no diagnostic text, stage creation goes on to the
    creation call with an empty bytecode of size zero. *)
Theorem compilation_without_bytecode_reaches_the_device
    (d : ShaderStageDescription.t) (w : World)
    (hr : HRESULT) (errors : option Bytes) :
  ShaderStageDescription.source_type d = SourceCode ->
  ShaderStageDescription.source_code d <> EmptyString ->
  native_answer
    (ShaderStageDescription.stage d) (ShaderStageDescription.source_code d)
    = Some (hr, None, errors) ->
  SUCCEEDED hr = true ->
  default EmptyString (string_of_list_byte <$> errors) = EmptyString ->
  resolve_bytecode d w = Returns ([], 0%N) w
  /\ create_shader_module d w =
       (handle <-
          create_native_shader (ShaderStageDescription.stage d) nullptr [] 0%N ;;
        ret (ShaderModule.make (ShaderStageDescription.stage d) handle)) w.
Proof.
  intros Hsource Hnonempty Hanswer Hok Hquiet.
  pose proof (resolve_bytecode_source_answer _ w _ _ _
                Hsource Hnonempty Hanswer Hok Hquiet) as Hresolve.
  split; [done|]. by rewrite (create_shader_module_resolved _ _ _ _ Hresolve).
Qed.

(** X4. A description whose kind occurs earlier in the list has no effect on
    construction, whatever it holds: with it or without it the constructor
    has the same outcome in every world. *)
Theorem construct_ignores_later_duplicates
    (before after : list ShaderStageDescription.t) (d : ShaderStageDescription.t) :
  ShaderStageDescription.stage d ∈ kinds_of before ->
  forall w : World,
    D3D11Shader_construct (ShaderDescription.make (before ++ d :: after)%list) w =
    D3D11Shader_construct (ShaderDescription.make (before ++ after)%list) w.
Proof.
  intros Hin w. rewrite !D3D11Shader_construct_create_all. cbn.
  unfold first_of_each_kind. by rewrite first_of_each_kind_from_skip.
Qed.

(** X5. Construction depends on the first description of each kind only:
    the description cut down to its first occurrences constructs with the
    same outcome in every world. *)
Theorem construct_from_first_occurrences
    (description : ShaderDescription.t) (w : World) :
  D3D11Shader_construct
    (ShaderDescription.make (first_of_each_kind (ShaderDescription.stages description))) w
  = D3D11Shader_construct description w.
Proof.
  rewrite !D3D11Shader_construct_create_all. cbn.
  unfold first_of_each_kind. by rewrite first_of_each_kind_from_idem.
Qed.

(** X6. A construction that completes leaves no blob of the compiler alive
    that was not alive before, and calls [Release] on nothing: the live blobs
    and the release log are those of the world it started in. *)
Theorem construct_keeps_blobs_and_releases
    (description : ShaderDescription.t) (w w' : World) (self : D3D11Shader) :
  D3D11Shader_construct description w = Returns self w' ->
  blobs w' = blobs w /\ released w' = released w.
Proof.
  rewrite D3D11Shader_construct_create_all.
  intros (modules & w1 & Hall & [= _ <-])%bind_inv_Returns.
  by eapply create_all_world.
Qed.

(** X7. Destroying a constructed program calls [Release] on exactly the
    non-null handles that the lookup returns for the stored kinds, in
    storage order, and what is left answers [nullptr] to every lookup. *)
Theorem destruct_releases_what_lookup_returns
    (description : ShaderDescription.t) (w w' : World) (self : D3D11Shader) :
  D3D11Shader_construct description w = Returns self w' ->
  D3D11Shader_destruct self w' =
    Returns (MkD3D11Shader [])
      (after_releases w'
         (filter (fun h => h ≠ nullptr)
            (get_shader_module self <$> module_kinds (m_shader_modules self))))
  /\ (forall self' w'',
        D3D11Shader_destruct self w' = Returns self' w'' ->
        forall kind, get_shader_module self' kind = nullptr).
Proof.
  intros Hself.
  destruct (D3D11Shader_construct_modules _ _ _ _ Hself) as (_ & _ & Hnd & _).
  assert (Hhandles :
    get_shader_module self <$> module_kinds (m_shader_modules self)
    = ShaderModule.handle <$> m_shader_modules self).
  { unfold module_kinds. rewrite <- list_fmap_compose.
    apply list_fmap_ext. intros i m Hi. cbn.
    apply find_shader_module_present; [done|]. by eapply list_elem_of_lookup_2. }
  split.
  - rewrite Hhandles. apply D3D11Shader_destruct_spec.
  - intros self' w''. rewrite D3D11Shader_destruct_spec. by intros [= <- _].
Qed.

(** X8. With a device that hands back an object whenever it succeeds, a
    module of a constructed program holds a null handle exactly when its
    kind is none of the enumerators. *)
Theorem null_handles_are_the_unknown_kinds
    (description : ShaderDescription.t) (w w' : World) (self : D3D11Shader)
    (m : ShaderModule.t) :
  device_hands_back_objects ->
  D3D11Shader_construct description w = Returns self w' ->
  m ∈ m_shader_modules self ->
  ShaderModule.handle m = nullptr <-> is_known_stage (ShaderModule.stage m) = false.
Proof.
  intros Hdevice Hself Hm.
  destruct (D3D11Shader_construct_modules _ _ _ _ Hself) as (_ & _ & _ & _ & Hbuilt).
  apply list_elem_of_lookup_1 in Hm as [i Hi].
  destruct (Hbuilt i m Hi) as (d & _ & _ & w1 & w2 & Hcreate).
  pose proof (create_shader_module_stage _ _ _ _ Hcreate) as Hstage.
  destruct (is_known_stage (ShaderModule.stage m)) eqn:Hknown.
  - split; [|done]. intros Hnull.
    exfalso. eapply create_shader_module_known_handle; [done| |done|done].
    by rewrite <- Hstage.
  - split; [done|]. intros _.
    eapply create_shader_module_unknown_handle; [|done]. by rewrite <- Hstage.
Qed.

(** X9. With a device that hands back an object whenever it succeeds, and a
    description all of whose kinds are enumerators, the lookup on the
    constructed program returns a non-null handle exactly for the kinds the
    description names. *)
Theorem lookup_finds_the_described_kinds
    (description : ShaderDescription.t) (w w' : World) (self : D3D11Shader) :
  device_hands_back_objects ->
  Forall (fun kind => is_known_stage kind = true)
    (kinds_of (ShaderDescription.stages description)) ->
  D3D11Shader_construct description w = Returns self w' ->
  forall kind,
    get_shader_module self kind <> nullptr <->
    kind ∈ kinds_of (ShaderDescription.stages description).
Proof.
  intros Hdevice Hknown Hself kind.
  destruct (D3D11Shader_construct_modules _ _ _ _ Hself) as (_ & _ & _ & Hkinds & _).
  destruct (get_shader_module_after_construct _ _ _ _ Hself) as [Hpresent Habsent].
  rewrite <- Hkinds. split.
  - intros Hnonnull.
    destruct (decide (kind ∈ module_kinds (m_shader_modules self))) as [|Hno]; [done|].
    by apply Habsent in Hno.
  - intros Hin. pose proof Hin as Hdescribed. apply Hkinds in Hdescribed.
    apply list_elem_of_fmap_1 in Hin as (m & -> & Hm).
    apply (Hpresent m Hm); [done|].
    by apply (proj1 (Forall_forall _ _) Hknown).
Qed.

(** X10. For a description whose kind is none of the enumerators, stage
    creation returns a module exactly when the origin is bytecode with a
    payload size above zero; given as source text, or with any other origin,
    it aborts. *)
Theorem unknown_kind_module_needs_bytecode
    (d : ShaderStageDescription.t) (w : World) :
  is_known_stage (ShaderStageDescription.stage d) = false ->
  (exists m w', create_shader_module d w = Returns m w') <->
  ShaderStageDescription.source_type d = Bytecode /\
  (0 < ShaderStageDescription.source_bytecode_size d)%N.
Proof.
  intros Hunknown.
  destruct (ShaderStageDescription.stage d) as [| |raw] eqn:Hstage; [done..|].
  split.
  - intros (m & w' & Hm). unfold create_shader_module in Hm.
    apply bind_inv_Returns in Hm as (source & w1 & Hresolve & _).
    unfold resolve_bytecode in Hresolve.
    destruct (ShaderStageDescription.source_type d); [| |done].
    + rewrite Hstage in Hresolve.
      destruct (is_empty (ShaderStageDescription.source_code d)); [done|].
      cbn in Hresolve. unfold bind in Hresolve. done.
    + split; [done|]. apply N.ltb_lt.
      by destruct (0 <? ShaderStageDescription.source_bytecode_size d)%N.
  - intros [Horigin Hsize].
    exists (ShaderModule.make (UnknownStage raw) nullptr), w.
    rewrite (create_shader_module_resolved _ _ _ _
               (resolve_bytecode_payload _ w Horigin Hsize)).
    by rewrite Hstage.
Qed.

Lemma owned_handles_all (modules : list ShaderModule.t) :
  Forall (fun m => ShaderModule.handle m <> nullptr) modules ->
  owned_handles modules = ShaderModule.handle <$> modules.
Proof.
  induction 1 as [|m rest Hm _ IH]; [done|].
  rewrite owned_handles_cons, IH, filter_cons, filter_nil.
  by rewrite decide_True.
Qed.

(** X11. With a device that hands back an object whenever it succeeds, and
    a description all of whose kinds are enumerators, destroying the
    constructed program calls [Release] on the handle of every stored
    module, none left out: K calls for the K distinct kinds of the
    description. *)
Theorem destruct_releases_every_created_object
    (description : ShaderDescription.t) (w w' : World) (self : D3D11Shader) :
  device_hands_back_objects ->
  Forall (fun kind => is_known_stage kind = true)
    (kinds_of (ShaderDescription.stages description)) ->
  D3D11Shader_construct description w = Returns self w' ->
  D3D11Shader_destruct self w' =
    Returns (MkD3D11Shader [])
      (after_releases w' (ShaderModule.handle <$> m_shader_modules self))
  /\ length (ShaderModule.handle <$> m_shader_modules self)
     = length (distinct_kinds (ShaderDescription.stages description)).
Proof.
  intros Hdevice Hknown Hself.
  destruct (D3D11Shader_construct_modules _ _ _ _ Hself)
    as (Hlength & _ & _ & Hkinds & _).
  destruct (get_shader_module_after_construct _ _ _ _ Hself) as [Hpresent _].
  split; [|by rewrite length_fmap].
  rewrite D3D11Shader_destruct_spec, owned_handles_all; [done|].
  apply Forall_forall. intros m Hm.
  destruct (Hpresent m Hm) as [<- Hnonnull]. apply Hnonnull; [done|].
  apply (proj1 (Forall_forall _ _) Hknown), Hkinds.
  by apply list_elem_of_fmap_2.
Qed.

End D3D11Shader_more.

(** * The further properties on the test doubles *)

Lemma test_device_hands_back_objects : device_hands_back_objects (api := test_api).
Proof.
  intros dev dev' data size hr h [Hcall|Hcall] _; cbn in Hcall;
    injection Hcall as _ <- _; apply N.neq_succ_0.
Qed.

Lemma stage_creation_stores_the_device_object_witness :
  create_shader_module (api := test_api) (from_bytecode Vertex [x01]) test_world
    = Returns (ShaderModule.make Vertex 1%N) (@MkWorld test_api 1%N ∅ [])
  /\ create_shader_module (api := broken_device_api)
       (from_bytecode Fragment [x01]) broken_world
     = Fatal (AssertionFailed "SUCCEEDED(fragment_shader_creation_result)").
Proof.
  split.
  - apply (proj1 (stage_creation_stores_the_device_object (api := test_api)
                    (from_bytecode Vertex [x01]) test_world ([x01], 1%N)
                    S_OK 1%N 1%N
                    ltac:(vm_compute; reflexivity) ltac:(vm_compute; reflexivity))).
    reflexivity.
  - apply (proj2 (stage_creation_stores_the_device_object (api := broken_device_api)
                    (from_bytecode Fragment [x01]) broken_world ([x01], 1%N)
                    E_FAIL 9%N tt
                    ltac:(vm_compute; reflexivity) ltac:(vm_compute; reflexivity))).
    reflexivity.
Defined.

Lemma origin_equivalence_witness :
  create_shader_module (api := test_api) (fragment_from_source "c") test_world
  = create_shader_module (api := test_api)
      (from_bytecode Fragment (list_byte_of_string "c")) test_world.
Proof.
  apply (origin_equivalence (api := test_api)
           (fragment_from_source "c") (from_bytecode Fragment (list_byte_of_string "c"))
           S_OK (list_byte_of_string "c") None).
  - reflexivity.
  - vm_compute. discriminate.
  - vm_compute. reflexivity.
  - reflexivity.
  - reflexivity.
  - vm_compute. discriminate.
  - reflexivity.
  - reflexivity.
  - reflexivity.
  - vm_compute. reflexivity.
Defined.

Lemma compilation_without_bytecode_reaches_the_device_witness :
  resolve_bytecode (api := blobless_api) (vertex_from_source "a") blobless_world
    = Returns ([], 0%N) blobless_world
  /\ create_shader_module (api := blobless_api) (vertex_from_source "a") blobless_world
     = Returns (ShaderModule.make Vertex 1%N) (@MkWorld blobless_api 1%N ∅ []).
Proof.
  destruct (compilation_without_bytecode_reaches_the_device (api := blobless_api)
              (vertex_from_source "a") blobless_world S_OK None)
    as [Hresolve Hcreate].
  - reflexivity.
  - vm_compute. discriminate.
  - vm_compute. reflexivity.
  - reflexivity.
  - reflexivity.
  - split; [exact Hresolve|]. rewrite Hcreate. vm_compute. reflexivity.
Defined.

Lemma construct_ignores_later_duplicates_witness :
  D3D11Shader_construct (api := test_api)
    (ShaderDescription.make
       [vertex_from_source "a"; vertex_from_source ""; fragment_from_source "c"])
    test_world
  = D3D11Shader_construct (api := test_api)
      (ShaderDescription.make [vertex_from_source "a"; fragment_from_source "c"])
      test_world.
Proof.
  apply (construct_ignores_later_duplicates (api := test_api)
           [vertex_from_source "a"] [fragment_from_source "c"] (vertex_from_source "")).
  vm_compute. apply list_elem_of_here.
Defined.

Lemma construct_keeps_blobs_and_releases_witness :
  exists self w',
    D3D11Shader_construct (api := test_api) duplicate_vertex_description test_world
      = Returns self w'
    /\ blobs w' = ∅ /\ released w' = [].
Proof.
  exists (MkD3D11Shader [ShaderModule.make Vertex 1%N; ShaderModule.make Fragment 2%N]).
  exists (@MkWorld test_api 2%N ∅ []).
  assert (Hrun :
    D3D11Shader_construct (api := test_api) duplicate_vertex_description test_world
      = Returns
          (MkD3D11Shader [ShaderModule.make Vertex 1%N; ShaderModule.make Fragment 2%N])
          (@MkWorld test_api 2%N ∅ [])) by (vm_compute; reflexivity).
  split; [exact Hrun|].
  exact (construct_keeps_blobs_and_releases (api := test_api) _ _ _ _ Hrun).
Defined.

Lemma destruct_releases_what_lookup_returns_witness :
  D3D11Shader_destruct (api := test_api)
    (MkD3D11Shader [ShaderModule.make Vertex 1%N; ShaderModule.make Fragment 2%N])
    (@MkWorld test_api 2%N ∅ [])
  = Returns (MkD3D11Shader []) (@MkWorld test_api 2%N ∅ [1%N; 2%N]).
Proof.
  assert (Hrun :
    D3D11Shader_construct (api := test_api) duplicate_vertex_description test_world
      = Returns
          (MkD3D11Shader [ShaderModule.make Vertex 1%N; ShaderModule.make Fragment 2%N])
          (@MkWorld test_api 2%N ∅ [])) by (vm_compute; reflexivity).
  exact (proj1 (destruct_releases_what_lookup_returns (api := test_api) _ _ _ _ Hrun)).
Defined.

Lemma null_handles_are_the_unknown_kinds_witness :
  ShaderModule.handle (ShaderModule.make (UnknownStage 7) nullptr) = nullptr <->
  is_known_stage (UnknownStage 7) = false.
Proof.
  apply (null_handles_are_the_unknown_kinds (api := test_api)
           unknown_stage_description test_world test_world
           (MkD3D11Shader [ShaderModule.make (UnknownStage 7) nullptr])
           (ShaderModule.make (UnknownStage 7) nullptr)).
  - exact test_device_hands_back_objects.
  - vm_compute. reflexivity.
  - apply list_elem_of_here.
Defined.

Lemma lookup_finds_the_described_kinds_witness :
  get_shader_module
    (MkD3D11Shader [ShaderModule.make Vertex 1%N; ShaderModule.make Fragment 2%N])
    Fragment <> nullptr
  <-> Fragment ∈ kinds_of (ShaderDescription.stages duplicate_vertex_description).
Proof.
  apply (lookup_finds_the_described_kinds (api := test_api)
           duplicate_vertex_description test_world (@MkWorld test_api 2%N ∅ [])).
  - exact test_device_hands_back_objects.
  - vm_compute. repeat constructor.
  - vm_compute. reflexivity.
Defined.

Lemma unknown_kind_module_needs_bytecode_witness :
  (exists m w',
     create_shader_module (api := test_api)
       (from_bytecode (UnknownStage 7) [x01]) test_world = Returns m w')
  <-> Bytecode = Bytecode /\ (0 < 1)%N.
Proof.
  apply (unknown_kind_module_needs_bytecode (api := test_api)
           (from_bytecode (UnknownStage 7) [x01]) test_world).
  reflexivity.
Defined.

Lemma destruct_releases_every_created_object_witness :
  exists self w',
    D3D11Shader_construct (api := test_api)
      (ShaderDescription.make [fragment_from_source "c"; vertex_from_source "a"])
      test_world = Returns self w'
    /\ D3D11Shader_destruct self w' =
         Returns (MkD3D11Shader [])
           (after_releases w' (ShaderModule.handle <$> m_shader_modules self))
    /\ released (after_releases w' (ShaderModule.handle <$> m_shader_modules self))
       = [1%N; 2%N].
Proof.
  exists (MkD3D11Shader [ShaderModule.make Fragment 1%N; ShaderModule.make Vertex 2%N]).
  exists (@MkWorld test_api 2%N ∅ []).
  assert (Hrun :
    D3D11Shader_construct (api := test_api)
      (ShaderDescription.make [fragment_from_source "c"; vertex_from_source "a"])
      test_world
    = Returns
        (MkD3D11Shader [ShaderModule.make Fragment 1%N; ShaderModule.make Vertex 2%N])
        (@MkWorld test_api 2%N ∅ [])) by (vm_compute; reflexivity).
  split; [exact Hrun|]. split; [|reflexivity].
  refine (proj1 (destruct_releases_every_created_object (api := test_api)
                   _ _ _ _ test_device_hands_back_objects _ Hrun)).
  vm_compute. repeat constructor.
Defined.
